(** * fcm_send.py: the FCM command-line sender, embedded and verified

    The development follows [src/fcm_send.py]: the values [json.loads]
    produces, the exceptions the program raises and catches, the client
    class [FCMClient] and the command-line handler [CLIHandler].  Code of
    the interpreter and of the Firebase SDK is not part of the program: it
    is taken as a record of collaborators ([World]) the definitions are
    parameterised by. *)

From Stdlib Require Import ZArith String Ascii List.
From stdpp Require Import base option list strings gmap pretty.

Open Scope string_scope.
Open Scope list_scope.
Set Warnings "-register-all".

(** ** Python values *)

(** What [json.loads] can return.  A [dict] keeps its items in insertion
    order and its keys are distinct; a [float] is carried by the text
    [repr] gives for it, which identifies it. *)
Inductive pyval : Type :=
  | PNone
  | PBool (b : bool)
  | PInt (n : Z)
  | PFloat (r : string)
  | PStr (s : string)
  | PList (xs : list pyval)
  | PDict (kvs : list (string * pyval)).

Definition nl : string := String "010"%char EmptyString.
Definition dquote : string := String "034"%char EmptyString.

(** [s * n] on a [str]. *)
Fixpoint str_mul (s : string) (n : nat) : string :=
  match n with
  | O => EmptyString
  | S k => s +:+ str_mul s k
  end.

(** [type(v).__name__] *)
Definition type_name (v : pyval) : string :=
  match v with
  | PNone => "NoneType"
  | PBool _ => "bool"
  | PInt _ => "int"
  | PFloat _ => "float"
  | PStr _ => "str"
  | PList _ => "list"
  | PDict _ => "dict"
  end.

(** [bool(v)] *)
Definition py_bool (v : pyval) : bool :=
  match v with
  | PNone => false
  | PBool b => b
  | PInt n => negb (n =? 0)%Z
  | PFloat r => negb (String.eqb r "0.0" || String.eqb r "-0.0")
  | PStr s => negb (String.eqb s EmptyString)
  | PList xs => negb (bool_decide (xs = []))
  | PDict kvs => negb (bool_decide (kvs = []))
  end.

(** [bool(o)] for an [Optional[str]] *)
Definition truthy (o : option string) : bool :=
  match o with
  | Some s => negb (String.eqb s EmptyString)
  | None => false
  end.

(** [str(o)] for an [Optional[str]], as an f-string formats it *)
Definition str_opt (o : option string) : string :=
  match o with
  | Some s => s
  | None => "None"
  end.

(** ** Exceptions *)

Inductive exc_class : Type :=
  | OSError
  | FileNotFoundError
  | ValueError
  | JSONDecodeError
  | TypeError
  | AttributeError
  | UnregisteredError
  | SenderIdMismatchError
  | OtherError.

(** [EnvironmentError] is Python 3's alias of [OSError]. *)
Definition EnvironmentError : exc_class := OSError.

Global Instance exc_class_eq_dec : EqDecision exc_class.
Proof. solve_decision. Defined.

(** [issubclass c OSError] and [issubclass c json.JSONDecodeError].
    Every class here derives from [Exception]. *)
Definition is_OSError (c : exc_class) : bool :=
  match c with
  | OSError | FileNotFoundError => true
  | _ => false
  end.

Definition is_JSONDecodeError (c : exc_class) : bool :=
  match c with
  | JSONDecodeError => true
  | _ => false
  end.

Record pyexc : Type := PyExc { exc_cls : exc_class; exc_msg : string }.

(** What can unwind the stack: an [Exception], or the [SystemExit] that
    [sys.exit] raises, which no [except Exception] clause catches. *)
Inductive signal : Type :=
  | Exc (e : pyexc)
  | SystemExit (code : Z).

Inductive result (A : Type) : Type :=
  | Ok (a : A)
  | Raise (sg : signal).
Arguments Ok {A} a.
Arguments Raise {A} sg.

(** ** Messages of the SDK *)

(** [messaging.Notification(title=, body=, image=)] *)
Record Notification : Type := MkNotification {
  n_title : option string;
  n_body : option string;
  n_image : option string;
}.

(** [messaging.Message(notification=, token=, data=)]; [data] is whatever
    object the caller passed ([PNone] when omitted). *)
Record Message : Type := MkMessage {
  m_notification : option Notification;
  m_token : option string;
  m_data : pyval;
}.

(** ** The collaborators *)

(** The interpreter's builtins, the file system and the Firebase Admin SDK,
    as far as the program calls them. *)
Record World : Type := MkWorld {
  (** [repr] of a [str] *)
  str_repr : string -> string;
  (** [os.path.exists] *)
  path_exists : string -> bool;
  (** [open(path, "r")] followed by reading the file *)
  open_read : string -> pyexc + string;
  (** [json.loads]; [inl msg] is a [JSONDecodeError] with that text *)
  json_loads : string -> string + pyval;
  (** [firebase_admin.initialize_app()], given [os.environ] at the call *)
  initialize_app : gmap string string -> option pyexc;
  (** [firebase_admin.get_app().credential.get_access_token().access_token] *)
  admin_access_token : gmap string string -> pyexc + string;
  (** [credentials.Certificate(path).get_access_token().access_token] *)
  certificate_access_token : string -> pyexc + string;
  (** [messaging.send(message, dry_run=)] *)
  messaging_send : Message -> bool -> pyexc + string;
  (** [parser.prog], [parser.format_usage()], [parser.format_help()] *)
  prog : string;
  format_usage : string;
  format_help : string;
}.

(** [repr(v)] and [str(v)] *)
Fixpoint py_repr (w : World) (v : pyval) : string :=
  match v with
  | PNone => "None"
  | PBool true => "True"
  | PBool false => "False"
  | PInt n => pretty n
  | PFloat r => r
  | PStr s => str_repr w s
  | PList xs => "[" +:+ String.concat ", " (map (py_repr w) xs) +:+ "]"
  | PDict kvs =>
      "{" +:+ String.concat ", "
                (map (fun kv => str_repr w (fst kv) +:+ ": " +:+ py_repr w (snd kv)) kvs)
          +:+ "}"
  end.

Definition py_str (w : World) (v : pyval) : string :=
  match v with
  | PStr s => s
  | _ => py_repr w v
  end.

(** ** The process state and the monad of the program *)

(** Calls into the SDK, in the order they happen.  [EvInitializeApp]
    records the value of [GOOGLE_APPLICATION_CREDENTIALS] the SDK finds in
    the environment at that moment. *)
Inductive event : Type :=
  | EvInitializeApp (adc : option string)
  | EvAdminToken
  | EvCertificateToken (path : string)
  | EvSend (m : Message) (dry_run : bool).

Record State : Type := MkState {
  (** [os.environ] *)
  environ : gmap string string;
  (** whether [firebase_admin._apps] is non-empty *)
  fb_apps : bool;
  (** the client's [self._credentials_info] and [self._initialized] *)
  _credentials_info : pyval;
  _initialized : bool;
  (** what [print] wrote, one entry per call, and what went to stderr *)
  stdout : list string;
  stderr : list string;
  trace : list event;
}.

Definition M (A : Type) : Type := State -> result A * State.

Global Instance M_ret : MRet M := fun A a s => (Ok a, s).

Global Instance M_bind : MBind M := fun A B f m s =>
  match m s with
  | (Ok a, s') => f a s'
  | (Raise sg, s') => (Raise sg, s')
  end.

Definition gets {A} (f : State -> A) : M A := fun s => (Ok (f s), s).

Definition modify (f : State -> State) : M unit := fun s => (Ok tt, f s).

Definition raise {A} (c : exc_class) (msg : string) : M A :=
  fun s => (Raise (Exc (PyExc c msg)), s).

(** [sys.exit(code)] *)
Definition sys_exit {A} (code : Z) : M A :=
  fun s => (Raise (SystemExit code), s).

(** The outcome of a call into a collaborator. *)
Definition lift {A} (r : pyexc + A) : M A :=
  match r with
  | inl e => fun s => (Raise (Exc e), s)
  | inr a => mret a
  end.

(** [try: body / except ...:]: [clauses e] is the body of the first
    [except] clause whose class matches [e], if there is one. *)
Definition try_except {A} (body : M A) (clauses : pyexc -> option (M A)) : M A :=
  fun s =>
    match body s with
    | (Raise (Exc e), s') =>
        match clauses e with
        | Some handler => handler s'
        | None => (Raise (Exc e), s')
        end
    | r => r
    end.

Definition print (line : string) : M unit :=
  modify (fun s => MkState (environ s) (fb_apps s) (_credentials_info s)
                     (_initialized s) (stdout s ++ [line]) (stderr s) (trace s)).

Definition eprint (line : string) : M unit :=
  modify (fun s => MkState (environ s) (fb_apps s) (_credentials_info s)
                     (_initialized s) (stdout s) (stderr s ++ [line]) (trace s)).

Definition emit (e : event) : M unit :=
  modify (fun s => MkState (environ s) (fb_apps s) (_credentials_info s)
                     (_initialized s) (stdout s) (stderr s) (trace s ++ [e])).

(** [os.environ[k] = v] *)
Definition setenv (k v : string) : M unit :=
  modify (fun s => MkState (<[k:=v]> (environ s)) (fb_apps s) (_credentials_info s)
                     (_initialized s) (stdout s) (stderr s) (trace s)).

Definition set_fb_apps (b : bool) : M unit :=
  modify (fun s => MkState (environ s) b (_credentials_info s)
                     (_initialized s) (stdout s) (stderr s) (trace s)).

Definition set_credentials_info (v : pyval) : M unit :=
  modify (fun s => MkState (environ s) (fb_apps s) v
                     (_initialized s) (stdout s) (stderr s) (trace s)).

Definition set_initialized (b : bool) : M unit :=
  modify (fun s => MkState (environ s) (fb_apps s) (_credentials_info s)
                     b (stdout s) (stderr s) (trace s)).

(** ** Builtins used by the program *)

(** [json.loads(o)]; [None] is not a [str]. *)
Definition loads (w : World) (o : option string) : M pyval :=
  match o with
  | Some text =>
      match json_loads w text with
      | inl msg => raise JSONDecodeError msg
      | inr v => mret v
      end
  | None =>
      raise TypeError "the JSON object must be str, bytes or bytearray, not NoneType"
  end.

Definition no_attribute (v : pyval) (attr : string) : string :=
  "'" +:+ type_name v +:+ "' object has no attribute '" +:+ attr +:+ "'".

(** [v.items()] *)
Definition items (v : pyval) : M (list (string * pyval)) :=
  match v with
  | PDict kvs => mret kvs
  | _ => raise AttributeError (no_attribute v "items")
  end.

Fixpoint assoc (k : string) (kvs : list (string * pyval)) : option pyval :=
  match kvs with
  | [] => None
  | (k', v) :: rest => if String.eqb k k' then Some v else assoc k rest
  end.

(** [v.get(k, default)] *)
Definition get (v : pyval) (k : string) (default : pyval) : M pyval :=
  match v with
  | PDict kvs => mret (from_option id default (assoc k kvs))
  | _ => raise AttributeError (no_attribute v "get")
  end.

(** [{k: str(v) for k, v in kvs}] on the items of a [dict] *)
Definition str_values (w : World) (kvs : list (string * pyval)) : pyval :=
  PDict (map (fun kv => (fst kv, PStr (py_str w (snd kv)))) kvs).

(** ** [class FCMClient] *)

Record FCMClient : Type := MkFCMClient {
  _credentials_key_file : option string;
}.

Inductive AccessTokenType : Type :=
  | FIREBASE_ADMIN
  | FCM_OAUTH_HTTP_API.

Definition GOOGLE_APPLICATION_CREDENTIALS : string :=
  "GOOGLE_APPLICATION_CREDENTIALS".

Definition no_credentials : string :=
  "No credentials provided. Please provide one of the following:" +:+ nl +:+
  "  1. Use --credentials-key-file /path/to/service-account.json" +:+ nl +:+
  "  2. Set environment variable: export GOOGLE_APPLICATION_CREDENTIALS=/path/to/service-account.json".

(** The local [creds_path] of the property [credentials_path], as its
    first [if] leaves it: the command-line value, else the environment's. *)
Definition creds_path (self : FCMClient) (env : gmap string string) : option string :=
  if truthy (_credentials_key_file self)
  then _credentials_key_file self
  else env !! GOOGLE_APPLICATION_CREDENTIALS.

Definition credentials_path (w : World) (self : FCMClient) : M string :=
  env ← gets environ;
  let creds_path := creds_path self env in
  if negb (truthy creds_path) then
    raise EnvironmentError no_credentials
  else if negb (path_exists w (str_opt creds_path)) then
    raise FileNotFoundError ("Credentials file not found: " +:+ str_opt creds_path)
  else
    mret (str_opt creds_path).

Definition credentials_info (w : World) (self : FCMClient) : M pyval :=
  cached ← gets _credentials_info;
  match cached return M unit with
  | PNone =>
      path ← credentials_path w self;
      text ← lift (open_read w path);
      v ← loads w (Some text);
      set_credentials_info v
  | _ => mret tt
  end;;
  gets _credentials_info.

Definition project_id (w : World) (self : FCMClient) : M pyval :=
  info ← credentials_info w self;
  if py_bool info then
    info' ← credentials_info w self;
    get info' "project_id" (PStr "N/A")
  else
    mret (PStr EmptyString).

Definition service_account_email (w : World) (self : FCMClient) : M pyval :=
  info ← credentials_info w self;
  if py_bool info then
    info' ← credentials_info w self;
    get info' "client_email" (PStr "N/A")
  else
    mret (PStr EmptyString).

(** [firebase_admin.initialize_app()]: refuses a second default app. *)
Definition firebase_initialize_app (w : World) : M unit :=
  env ← gets environ;
  emit (EvInitializeApp (env !! GOOGLE_APPLICATION_CREDENTIALS));;
  apps ← gets fb_apps;
  if apps : bool then
    raise ValueError "The default Firebase app already exists."
  else
    match initialize_app w env with
    | Some e => lift (inl e)
    | None => set_fb_apps true
    end.

Definition initialize (w : World) (self : FCMClient) : M unit :=
  initialized ← gets _initialized;
  apps ← gets fb_apps;
  if negb initialized && negb apps then
    (if truthy (_credentials_key_file self)
     then setenv GOOGLE_APPLICATION_CREDENTIALS (str_opt (_credentials_key_file self))
     else mret tt);;
    firebase_initialize_app w;;
    set_initialized true
  else
    mret tt.

(** [firebase_admin.get_app()] *)
Definition firebase_get_app : M unit :=
  apps ← gets fb_apps;
  if apps : bool then mret tt
  else raise ValueError "The default Firebase app does not exist.".

Definition get_access_token (w : World) (self : FCMClient) : M string :=
  initialize w self;;
  firebase_get_app;;
  emit EvAdminToken;;
  env ← gets environ;
  lift (admin_access_token w env).

Definition get_access_token_http_api (w : World) (self : FCMClient) : M string :=
  initialize w self;;
  path ← credentials_path w self;
  emit (EvCertificateToken path);;
  lift (certificate_access_token w path).

Definition rule : string := str_mul "=" 60.

Definition show_info (w : World) (self : FCMClient)
    (access_token_type : AccessTokenType) : M unit :=
  print (nl +:+ rule);;
  print "Firebase Service Account Information";;
  print rule;;
  pid ← project_id w self;
  print ("  PROJECT_ID:            " +:+ py_str w pid);;
  email ← service_account_email w self;
  print ("  SERVICE_ACCOUNT_EMAIL: " +:+ py_str w email);;
  path ← credentials_path w self;
  print ("  CREDENTIALS_FILE:      " +:+ path);;
  print rule;;
  try_except
    (access_token ←
       match access_token_type with
       | FCM_OAUTH_HTTP_API =>
           tok ← get_access_token_http_api w self;
           print (nl +:+ "  ACCESS_TOKEN (first 50 chars): "
                     +:+ substring 0 50 tok +:+ "...");;
           mret tok
       | FIREBASE_ADMIN => get_access_token w self
       end;
     print ("  ACCESS_TOKEN (full):" +:+ nl +:+ access_token))
    (fun e => Some (print (nl +:+ "  Error retrieving access token: " +:+ exc_msg e)));;
  print (rule +:+ nl).

Definition send_notification (w : World) (self : FCMClient)
    (fcm_token title body : option string) (data : pyval)
    (image_url : option string) (dry_run : bool) : M string :=
  initialize w self;;
  let notification := MkNotification title body image_url in
  let message := MkMessage (Some notification) fcm_token data in
  emit (EvSend message dry_run);;
  lift (messaging_send w message dry_run).

Definition send_data_message (w : World) (self : FCMClient)
    (fcm_token : option string) (data : pyval) (dry_run : bool) : M string :=
  initialize w self;;
  kvs ← items data;
  let string_data := str_values w kvs in
  let message := MkMessage None fcm_token string_data in
  emit (EvSend message dry_run);;
  lift (messaging_send w message dry_run).

(** ** [class CLIHandler] *)

(** The namespace [parse_args] returns: [None] for a value option that was
    not passed, [False] for a switch that was not.  What argparse does on
    its own before that ([-h], an unknown option) is not part of [run]. *)
Record Args : Type := MkArgs {
  credentials_key_file : option string;
  info : bool;
  access_token : bool;
  info_http : bool;
  access_token_http : bool;
  token : option string;
  title : option string;
  body : option string;
  data : option string;
  data_only : option string;
  image : option string;
  dry_run : bool;
}.

(** [self.client], built in [__init__] *)
Definition client (a : Args) : FCMClient := MkFCMClient (credentials_key_file a).

(** [parser.error(message)]: usage and message on stderr, exit status 2 *)
Definition parser_error (w : World) (message : string) : M unit :=
  eprint (format_usage w);;
  eprint (prog w +:+ ": error: " +:+ message +:+ nl);;
  sys_exit 2.

Definition print_help (w : World) : M unit := print (format_help w).

Definition handle_info (w : World) (a : Args) (access_token_type : AccessTokenType) : M unit :=
  try_except
    (show_info w (client a) access_token_type)
    (fun e =>
       if is_OSError (exc_cls e)
       then Some (print ("Error: " +:+ exc_msg e);; sys_exit 1)
       else None).

Definition handle_data_only (w : World) (a : Args) : M unit :=
  d ← try_except
        (loads w (data_only a))
        (fun e =>
           if is_JSONDecodeError (exc_cls e)
           then Some (print ("Error: Invalid JSON in --data-only: " +:+ exc_msg e);;
                      sys_exit 1)
           else None);
  try_except
    (response ← send_data_message w (client a) (token a) d (dry_run a);
     if dry_run a then
       print (nl +:+ "✓ Dry run successful! Data message is valid.");;
       print ("  Message ID (dry run): " +:+ response)
     else
       print (nl +:+ "✓ Data message sent successfully!");;
       print ("  Message ID: " +:+ response))
    (fun e =>
       Some (print (nl +:+ "✗ Error sending data message: " +:+ exc_msg e);;
             sys_exit 1)).

Definition handle_notification (w : World) (a : Args) : M unit :=
  d ← (if truthy (data a) then
         try_except
           (v ← loads w (data a);
            kvs ← items v;
            mret (str_values w kvs))
           (fun e =>
              if is_JSONDecodeError (exc_cls e)
              then Some (print ("Error: Invalid JSON in --data: " +:+ exc_msg e);;
                         sys_exit 1)
              else None)
       else mret PNone);
  try_except
    (response ← send_notification w (client a) (token a) (title a) (body a) d
                  (image a) (dry_run a);
     if dry_run a then
       print (nl +:+ "✓ Dry run successful! Message is valid.");;
       print ("  Message ID (dry run): " +:+ response)
     else
       print (nl +:+ "✓ Notification sent successfully!");;
       print ("  Message ID: " +:+ response))
    (fun e =>
       match exc_cls e with
       | UnregisteredError =>
           Some (print (nl +:+ "✗ Error: The FCM token is not registered (device may have uninstalled the app)");;
                 sys_exit 1)
       | SenderIdMismatchError =>
           Some (print (nl +:+ "✗ Error: The FCM token does not match the sender ID (wrong project?)");;
                 sys_exit 1)
       | _ =>
           Some (print (nl +:+ "✗ Error sending notification: " +:+ exc_msg e);;
                 sys_exit 1)
       end).

Definition run (w : World) (a : Args) : M unit :=
  if info a || access_token a then
    handle_info w a FIREBASE_ADMIN
  else if info_http a || access_token_http a then
    handle_info w a FCM_OAUTH_HTTP_API
  else if truthy (data_only a) then
    (if negb (truthy (token a))
     then parser_error w "--token is required for sending messages"
     else mret tt);;
    handle_data_only w a
  else if truthy (token a) then
    (if negb (truthy (title a)) || negb (truthy (body a))
     then parser_error w "--title and --body are required for notifications"
     else mret tt);;
    handle_notification w a
  else
    print_help w.

(** ** The process *)

(** A fresh interpreter: no Firebase app, a client just constructed,
    nothing printed. *)
Definition initial_state (env : gmap string string) : State :=
  MkState env false PNone false [] [] [].

(** [main()] and the interpreter around it: the exit status and the final
    state.  An exception nobody caught ends the process with a traceback
    on stderr and status 1. *)
Definition main (w : World) (a : Args) (env : gmap string string) : Z * State :=
  match run w a (initial_state env) with
  | (Ok _, s) => (0%Z, s)
  | (Raise (SystemExit code), s) => (code, s)
  | (Raise (Exc e), s) =>
      (1%Z, snd ((eprint "Traceback (most recent call last):";;
                  eprint (exc_msg e)) s))
  end.

(** The messages handed to [messaging.send], in order. *)
Definition sent (s : State) : list (Message * bool) :=
  omap (fun e => match e with EvSend m d => Some (m, d) | _ => None end) (trace s).

(** How often [firebase_admin.initialize_app] was called. *)
Definition initializations (s : State) : list (option string) :=
  omap (fun e => match e with EvInitializeApp adc => Some adc | _ => None end) (trace s).

(** ** Notions the statements use *)

(** [n] calls of [m] in a row *)
Fixpoint times (n : nat) (m : M unit) : M unit :=
  match n with
  | O => mret tt
  | S k => m;; times k m
  end.

(** What [d.get(key, "N/A")] gives on the items of a [dict]. *)
Definition field (key : string) (kvs : list (string * pyval)) : pyval :=
  from_option id (PStr "N/A") (assoc key kvs).

(** The value of [GOOGLE_APPLICATION_CREDENTIALS] the SDK finds when
    [initialize] calls it from state [s]. *)
Definition adc_at_init (self : FCMClient) (s : State) : option string :=
  if truthy (_credentials_key_file self)
  then Some (str_opt (_credentials_key_file self))
  else environ s !! GOOGLE_APPLICATION_CREDENTIALS.

(** The five modes of the dispatcher, in the order [run] tries them, each
    with the test that selects it. *)
Inductive Mode : Type :=
  | ShowInfoAdmin
  | ShowInfoHttp
  | SendDataOnly
  | SendNotification
  | Help.

Definition modes_in_order : list Mode :=
  [ShowInfoAdmin; ShowInfoHttp; SendDataOnly; SendNotification; Help].

Definition matches (a : Args) (m : Mode) : bool :=
  match m with
  | ShowInfoAdmin => info a || access_token a
  | ShowInfoHttp => info_http a || access_token_http a
  | SendDataOnly => truthy (data_only a)
  | SendNotification => truthy (token a)
  | Help => true
  end.

(** The first mode of the list that matches. *)
Definition select_mode (a : Args) : Mode :=
  hd Help (filter (fun m => matches a m = true) modes_in_order).

(** What a mode does once selected. *)
Definition mode_action (w : World) (m : Mode) (a : Args) : M unit :=
  match m with
  | ShowInfoAdmin => handle_info w a FIREBASE_ADMIN
  | ShowInfoHttp => handle_info w a FCM_OAUTH_HTTP_API
  | SendDataOnly =>
      (if negb (truthy (token a))
       then parser_error w "--token is required for sending messages"
       else mret tt);;
      handle_data_only w a
  | SendNotification =>
      (if negb (truthy (title a)) || negb (truthy (body a))
       then parser_error w "--title and --body are required for notifications"
       else mret tt);;
      handle_notification w a
  | Help => print_help w
  end.

(** Two invocations agree on everything mode [m] reads. *)
Definition same_inputs (m : Mode) (a a' : Args) : Prop :=
  match m with
  | ShowInfoAdmin | ShowInfoHttp =>
      credentials_key_file a = credentials_key_file a'
  | SendDataOnly =>
      credentials_key_file a = credentials_key_file a'
      /\ data_only a = data_only a' /\ token a = token a'
      /\ dry_run a = dry_run a'
  | SendNotification =>
      credentials_key_file a = credentials_key_file a'
      /\ token a = token a' /\ title a = title a' /\ body a = body a'
      /\ data a = data a' /\ image a = image a' /\ dry_run a = dry_run a'
  | Help => True
  end.

(** The invocations [run] answers with [parser.error], and its message. *)
Definition usage_error (a : Args) : bool :=
  negb (info a || access_token a) && negb (info_http a || access_token_http a)
  && (if truthy (data_only a) then negb (truthy (token a))
      else truthy (token a) && (negb (truthy (title a)) || negb (truthy (body a)))).

Definition usage_message (a : Args) : string :=
  if truthy (data_only a)
  then "--token is required for sending messages"
  else "--title and --body are required for notifications".

(** [s.startswith(p)] *)
Fixpoint startswith (p s : string) : bool :=
  match p with
  | EmptyString => true
  | String c p' =>
      match s with
      | String c' s' => Ascii.eqb c c' && startswith p' s'
      | EmptyString => false
      end
  end.

(** The lines the handlers print for an error they caught. *)
Definition error_line (line : string) : bool :=
  startswith "Error: " line || startswith (nl +:+ "✗ Error") line.

(** [m] leaves the observation [f] of the state as it was. *)
Definition preserves {A X : Type} (f : State -> X) (m : M A) : Prop :=
  forall s, f (snd (m s)) = f s.

(** [m] never ends in [SystemExit]. *)
Definition quiet {A : Type} (m : M A) : Prop :=
  forall s c, fst (m s) <> Raise (SystemExit c).

(** The value [handle_notification] passes as [data], when it gets that
    far, or the way it ends before. *)
Definition notification_data (w : World) (a : Args) : M pyval :=
  if truthy (data a) then
    match data a with
    | Some text =>
        match json_loads w text with
        | inl msg =>
            print ("Error: Invalid JSON in --data: " +:+ msg);; sys_exit 1
        | inr (PDict kvs) => mret (str_values w kvs)
        | inr v => raise AttributeError (no_attribute v "items")
        end
    | None => mret PNone
    end
  else mret PNone.

(** When [m] ends in [SystemExit], the status is 1 and the last line on
    stdout is an error line. *)
Definition reports_exit {A : Type} (m : M A) : Prop :=
  forall s c,
    fst (m s) = Raise (SystemExit c) ->
    c = 1%Z /\ exists line, last (stdout (snd (m s))) = Some line /\ error_line line = true.

(** ** Notions of the further properties *)

(** An SDK call that goes to the network: a token request or a send. *)
Definition remote_call (e : event) : bool :=
  match e with
  | EvInitializeApp _ => false
  | EvAdminToken | EvCertificateToken _ | EvSend _ _ => true
  end.

(** The first three lines [show_info] prints. *)
Definition banner : list string :=
  [nl +:+ rule; "Firebase Service Account Information"; rule].

(** The four lines [show_info] prints about a payload with items [kvs]
    loaded from [path]. *)
Definition account_lines (w : World) (kvs : list (string * pyval)) (path : string)
    : list string :=
  ["  PROJECT_ID:            "
     +:+ py_str w (match kvs with [] => PStr EmptyString | _ => field "project_id" kvs end);
   "  SERVICE_ACCOUNT_EMAIL: "
     +:+ py_str w (match kvs with [] => PStr EmptyString | _ => field "client_email" kvs end);
   "  CREDENTIALS_FILE:      " +:+ path;
   rule].

(** The lines [show_info] prints for a token it got. *)
Definition token_lines (t : AccessTokenType) (tok : string) : list string :=
  match t with
  | FCM_OAUTH_HTTP_API =>
      [nl +:+ "  ACCESS_TOKEN (first 50 chars): " +:+ substring 0 50 tok +:+ "...";
       "  ACCESS_TOKEN (full):" +:+ nl +:+ tok]
  | FIREBASE_ADMIN => ["  ACCESS_TOKEN (full):" +:+ nl +:+ tok]
  end.

(** The access-token type a show-info invocation asks for. *)
Definition token_type (a : Args) : AccessTokenType :=
  if info a || access_token a then FIREBASE_ADMIN else FCM_OAUTH_HTTP_API.

(** The two lines a send handler prints after [messaging.send] returned
    [response]. *)
Definition success_lines (a : Args) (response : string) : list string :=
  if truthy (data_only a) then
    if dry_run a then
      [nl +:+ "✓ Dry run successful! Data message is valid.";
       "  Message ID (dry run): " +:+ response]
    else
      [nl +:+ "✓ Data message sent successfully!"; "  Message ID: " +:+ response]
  else
    if dry_run a then
      [nl +:+ "✓ Dry run successful! Message is valid.";
       "  Message ID (dry run): " +:+ response]
    else
      [nl +:+ "✓ Notification sent successfully!"; "  Message ID: " +:+ response].

(** The line a send handler prints for an exception [e] raised inside its
    [try]. *)
Definition send_error_line (a : Args) (e : pyexc) : string :=
  if truthy (data_only a) then
    nl +:+ "✗ Error sending data message: " +:+ exc_msg e
  else
    match exc_cls e with
    | UnregisteredError =>
        nl +:+ "✗ Error: The FCM token is not registered (device may have uninstalled the app)"
    | SenderIdMismatchError =>
        nl +:+ "✗ Error: The FCM token does not match the sender ID (wrong project?)"
    | _ => nl +:+ "✗ Error sending notification: " +:+ exc_msg e
    end.

(** A state in which the process has made no SDK call yet. *)
Definition untouched (s : State) : Prop :=
  trace s = [] /\ _initialized s = false /\ fb_apps s = false.

(** The SDK calls of one run: none, or one initialisation that finds
    [adc] in [GOOGLE_APPLICATION_CREDENTIALS], followed by at most one
    remote call. *)
Definition session_trace (adc : option string) (tr : list event) : Prop :=
  tr = []
  \/ tr = [EvInitializeApp adc]
  \/ exists e, tr = [EvInitializeApp adc; e] /\ remote_call e = true.

(** The token request of [show_info], by access-token type. *)
Definition get_token (w : World) (self : FCMClient) (t : AccessTokenType) : M string :=
  match t with
  | FCM_OAUTH_HTTP_API => get_access_token_http_api w self
  | FIREBASE_ADMIN => get_access_token w self
  end.

(** The last part of [show_info]: its [try] block and the closing rule. *)
Definition token_report (w : World) (self : FCMClient)
    (access_token_type : AccessTokenType) : M unit :=
  try_except
    (access_token ←
       match access_token_type with
       | FCM_OAUTH_HTTP_API =>
           tok ← get_access_token_http_api w self;
           print (nl +:+ "  ACCESS_TOKEN (first 50 chars): "
                     +:+ substring 0 50 tok +:+ "...");;
           mret tok
       | FIREBASE_ADMIN => get_access_token w self
       end;
     print ("  ACCESS_TOKEN (full):" +:+ nl +:+ access_token))
    (fun e => Some (print (nl +:+ "  Error retrieving access token: " +:+ exc_msg e)));;
  print (rule +:+ nl).

(** The state [show_info] has reached when it enters its [try] block,
    after loading a payload with items [kvs] from [path]. *)
Definition loaded_state (w : World) (env : gmap string string)
    (kvs : list (string * pyval)) (path : string) : State :=
  MkState env false (PDict kvs) false (banner ++ account_lines w kvs path) [] [].

(** ** A concrete installation, for the scenarios *)

Module Scenario.

Definition sa_path : string := "/etc/fcm/service-account.json".
Definition env_path : string := "/home/ci/adc.json".
Definition empty_path : string := "/tmp/empty.json".
Definition list_path : string := "/tmp/list.json".
Definition missing_path : string := "/no/such/file.json".

(** [{"project_id":"demo","client_email":"x@y.iam"}] *)
Definition sa_text : string :=
  "{" +:+ dquote +:+ "project_id" +:+ dquote +:+ ":" +:+ dquote +:+ "demo" +:+ dquote
      +:+ "," +:+ dquote +:+ "client_email" +:+ dquote +:+ ":" +:+ dquote +:+ "x@y.iam"
      +:+ dquote +:+ "}".

(** [{"n":1}] *)
Definition n1_text : string := "{" +:+ dquote +:+ "n" +:+ dquote +:+ ":1}".

(** [json.loads] on the texts the scenarios use; every other text here
    is one the decoder rejects at its first character. *)
Definition loads_table (text : string) : string + pyval :=
  if String.eqb text sa_text then
    inr (PDict [("project_id", PStr "demo"); ("client_email", PStr "x@y.iam")])
  else if String.eqb text n1_text then inr (PDict [("n", PInt 1)])
  else if String.eqb text "{}" then inr (PDict [])
else if String.eqb text "[1]" then inr (PList [PInt 1])
  else if String.eqb text "5" then inr (PInt 5)
  else inl "Expecting value: line 1 column 1 (char 0)".

Definition files (path : string) : option string :=
  if String.eqb path sa_path then Some sa_text
  else if String.eqb path env_path then Some sa_text
  else if String.eqb path empty_path then Some "{}"
else if String.eqb path list_path then Some "[1]"
  else None.

(** A machine with four credential files, an SDK that initialises and a
    service that accepts every message.  [str_repr] is [repr] on strings
    without quotes, backslashes or control characters. *)
Definition world : World := {|
  str_repr := fun s => "'" +:+ s +:+ "'";
  path_exists := fun p => bool_decide (is_Some (files p));
  open_read := fun p =>
    match files p with
    | Some text => inr text
    | None => inl (PyExc FileNotFoundError ("[Errno 2] No such file or directory: '" +:+ p +:+ "'"))
    end;
  json_loads := loads_table;
  initialize_app := fun _ => None;
  admin_access_token := fun _ => inr "ya29.admin";
  certificate_access_token := fun _ => inr "ya29.http";
  messaging_send := fun _ _ => inr "projects/demo/messages/0:1";
  prog := "fcm_send.py";
  format_usage := "usage: fcm_send.py [-h] [--credentials-key-file PATH] ...";
  format_help := "usage: fcm_send.py [-h] [--credentials-key-file PATH] ...";
|}.

(** The same machine with a service that refuses every message. *)
Definition offline : World := {|
  str_repr := str_repr world;
  path_exists := path_exists world;
  open_read := open_read world;
  json_loads := json_loads world;
  initialize_app := initialize_app world;
  admin_access_token := fun _ => inl (PyExc OtherError "Connection refused");
  certificate_access_token := fun _ => inl (PyExc OtherError "Connection refused");
  messaging_send := fun _ _ => inl (PyExc OtherError "Connection refused");
  prog := prog world;
  format_usage := format_usage world;
  format_help := format_help world;
|}.

Definition env_unset : gmap string string := ∅.
Definition env_set : gmap string string :=
  {[ GOOGLE_APPLICATION_CREDENTIALS := env_path ]}.

End Scenario.

(** ** Installations in which something fails *)

Module Faults.

(** The credential files exist but cannot be opened. *)
Definition unreadable : World := {|
  str_repr := str_repr Scenario.world;
  path_exists := path_exists Scenario.world;
  open_read := fun p =>
    inl (PyExc OSError ("[Errno 13] Permission denied: '" +:+ p +:+ "'"));
  json_loads := json_loads Scenario.world;
  initialize_app := initialize_app Scenario.world;
  admin_access_token := admin_access_token Scenario.world;
  certificate_access_token := certificate_access_token Scenario.world;
  messaging_send := messaging_send Scenario.world;
  prog := prog Scenario.world;
  format_usage := format_usage Scenario.world;
  format_help := format_help Scenario.world;
|}.

(** The credential files hold text that is not JSON. *)
Definition garbled : World := {|
  str_repr := str_repr Scenario.world;
  path_exists := path_exists Scenario.world;
  open_read := fun _ => inr "oops";
  json_loads := json_loads Scenario.world;
  initialize_app := initialize_app Scenario.world;
  admin_access_token := admin_access_token Scenario.world;
  certificate_access_token := certificate_access_token Scenario.world;
  messaging_send := messaging_send Scenario.world;
  prog := prog Scenario.world;
  format_usage := format_usage Scenario.world;
  format_help := format_help Scenario.world;
|}.

(** The SDK refuses to initialise. *)
Definition no_sdk : World := {|
  str_repr := str_repr Scenario.world;
  path_exists := path_exists Scenario.world;
  open_read := open_read Scenario.world;
  json_loads := json_loads Scenario.world;
  initialize_app := fun _ => Some (PyExc ValueError "Invalid Firebase app options.");
  admin_access_token := admin_access_token Scenario.world;
  certificate_access_token := certificate_access_token Scenario.world;
  messaging_send := messaging_send Scenario.world;
  prog := prog Scenario.world;
  format_usage := format_usage Scenario.world;
  format_help := format_help Scenario.world;
|}.

(** The service answers that the device token is not registered. *)
Definition unregistered : World := {|
  str_repr := str_repr Scenario.world;
  path_exists := path_exists Scenario.world;
  open_read := open_read Scenario.world;
  json_loads := json_loads Scenario.world;
  initialize_app := initialize_app Scenario.world;
  admin_access_token := admin_access_token Scenario.world;
  certificate_access_token := certificate_access_token Scenario.world;
  messaging_send := fun _ _ =>
    inl (PyExc UnregisteredError "Requested entity was not found.");
  prog := prog Scenario.world;
  format_usage := format_usage Scenario.world;
  format_help := format_help Scenario.world;
|}.

(** An empty disk: no file exists, none can be opened. *)
Definition empty_disk : World := {|
  str_repr := str_repr Scenario.world;
  path_exists := fun _ => false;
  open_read := fun p =>
    inl (PyExc FileNotFoundError ("[Errno 2] No such file or directory: '" +:+ p +:+ "'"));
  json_loads := json_loads Scenario.world;
  initialize_app := initialize_app Scenario.world;
  admin_access_token := fun _ => inl (PyExc OtherError "no credentials");
  certificate_access_token := fun _ => inl (PyExc OtherError "no credentials");
  messaging_send := messaging_send Scenario.world;
  prog := prog Scenario.world;
  format_usage := format_usage Scenario.world;
  format_help := format_help Scenario.world;
|}.

End Faults.

(** * Verification *)

Ltac unfold_m :=
  unfold mbind, mret, M_bind, M_ret, gets, modify, raise, sys_exit, lift,
    print, eprint, emit, setenv, set_fb_apps, set_credentials_info,
    set_initialized in *.

(** ** The credential resolver *)

Section Resolver.

Variable w : World.
Variable self : FCMClient.

Lemma creds_path_flag (env : gmap string string) (p : string) :
  _credentials_key_file self = Some p -> p <> EmptyString ->
  creds_path self env = Some p.
Proof.
  intros Hp Hne. unfold creds_path. rewrite Hp. simpl.
  destruct (String.eqb_spec p EmptyString); [contradiction | reflexivity].
Qed.

Lemma truthy_Some (o : option string) :
  truthy o = true -> exists p, o = Some p /\ p <> EmptyString.
Proof.
  destruct o as [p|]; simpl; [|discriminate].
  destruct (String.eqb_spec p EmptyString); [discriminate|]. eauto.
Qed.

Lemma truthy_intro (p : string) : p <> EmptyString -> truthy (Some p) = true.
Proof.
  intros Hne. simpl. destruct (String.eqb_spec p EmptyString); [contradiction | reflexivity].
Qed.

(** [credentials_path], one equation: it reads the state and never
    changes it. *)
Lemma credentials_path_eq (s : State) :
  credentials_path w self s =
  (if negb (truthy (creds_path self (environ s))) then
     Raise (Exc (PyExc EnvironmentError no_credentials))
   else if negb (path_exists w (str_opt (creds_path self (environ s)))) then
     Raise (Exc (PyExc FileNotFoundError
                  ("Credentials file not found: "
                     +:+ str_opt (creds_path self (environ s)))))
   else Ok (str_opt (creds_path self (environ s))), s).
Proof.
  unfold credentials_path. unfold_m. cbn.
  repeat case_match; reflexivity.
Qed.

Lemma credentials_path_state (s : State) :
  snd (credentials_path w self s) = s.
Proof. rewrite credentials_path_eq. reflexivity. Qed.

End Resolver.

(** C5. With no path from [--credentials-key-file] and none from
    [GOOGLE_APPLICATION_CREDENTIALS], [credentials_path] raises
    [EnvironmentError] (the resolver's configuration error) and leaves the
    state as it was: no call into the SDK, hence no network access, is
    recorded.  With a path selected that does not exist on disk it raises
    [FileNotFoundError] for that path. *)
Theorem credentials_path_failures (w : World) (self : FCMClient) (s : State) :
  (truthy (_credentials_key_file self) = false ->
   truthy (environ s !! GOOGLE_APPLICATION_CREDENTIALS) = false ->
   credentials_path w self s =
     (Raise (Exc (PyExc EnvironmentError no_credentials)), s))
  /\
  (forall p : string,
     creds_path self (environ s) = Some p -> p <> EmptyString ->
     path_exists w p = false ->
     credentials_path w self s =
       (Raise (Exc (PyExc FileNotFoundError ("Credentials file not found: " +:+ p))), s)).
Proof.
  split.
  - intros Hflag Henv. rewrite credentials_path_eq.
    unfold creds_path. rewrite Hflag, Henv. reflexivity.
  - intros p Hsel Hne Hmissing. rewrite credentials_path_eq, Hsel.
    rewrite (truthy_intro p Hne). simpl. rewrite Hmissing. reflexivity.
Qed.

Lemma credentials_path_failures_witness :
  credentials_path Scenario.world (MkFCMClient None) (initial_state Scenario.env_unset)
    = (Raise (Exc (PyExc EnvironmentError no_credentials)),
       initial_state Scenario.env_unset)
  /\
  credentials_path Scenario.world (MkFCMClient None)
      (initial_state {[ GOOGLE_APPLICATION_CREDENTIALS := Scenario.missing_path ]})
    = (Raise (Exc (PyExc FileNotFoundError
                    ("Credentials file not found: " +:+ Scenario.missing_path))),
       initial_state {[ GOOGLE_APPLICATION_CREDENTIALS := Scenario.missing_path ]}).
Proof.
  split.
  - apply (proj1 (credentials_path_failures Scenario.world (MkFCMClient None)
                    (initial_state Scenario.env_unset))); reflexivity.
  - apply (proj2 (credentials_path_failures Scenario.world (MkFCMClient None)
                    (initial_state {[ GOOGLE_APPLICATION_CREDENTIALS := Scenario.missing_path ]}))
             Scenario.missing_path).
    + vm_compute. reflexivity.
    + discriminate.
    + reflexivity.
Defined.

(** C2, as the code has it.  A non-empty [--credentials-key-file] value is
    the path [credentials_path] selects, whatever
    [GOOGLE_APPLICATION_CREDENTIALS] holds: it is returned when the file
    exists, and [FileNotFoundError] for that same path is raised when it
    does not.  The environment variable is the selected path only when the
    option is absent or empty. *)
Theorem credentials_path_precedence (w : World) (self : FCMClient) (s : State) :
  (forall p : string,
     _credentials_key_file self = Some p -> p <> EmptyString ->
     creds_path self (environ s) = Some p /\
     credentials_path w self s =
       (if path_exists w p then Ok p
        else Raise (Exc (PyExc FileNotFoundError ("Credentials file not found: " +:+ p))),
        s))
  /\
  (truthy (_credentials_key_file self) = false ->
   creds_path self (environ s) = environ s !! GOOGLE_APPLICATION_CREDENTIALS)
  /\
  (creds_path self (environ s) <> _credentials_key_file self ->
   truthy (_credentials_key_file self) = false).
Proof.
  split; [|split].
  - intros p Hp Hne.
    pose proof (creds_path_flag self (environ s) p Hp Hne) as Hsel.
    split; [exact Hsel|].
    rewrite credentials_path_eq, Hsel, (truthy_intro p Hne). simpl.
    destruct (path_exists w p); reflexivity.
  - intros Hflag. unfold creds_path. rewrite Hflag. reflexivity.
  - intros Hdiff. unfold creds_path in Hdiff.
    destruct (truthy (_credentials_key_file self)); [contradiction | reflexivity].
Qed.

Lemma credentials_path_precedence_witness :
  creds_path (MkFCMClient (Some Scenario.sa_path)) Scenario.env_set = Some Scenario.sa_path
  /\
  credentials_path Scenario.world (MkFCMClient (Some Scenario.sa_path))
      (initial_state Scenario.env_set)
    = (Ok Scenario.sa_path, initial_state Scenario.env_set).
Proof.
  apply (proj1 (credentials_path_precedence Scenario.world
                  (MkFCMClient (Some Scenario.sa_path))
                  (initial_state Scenario.env_set)) Scenario.sa_path).
  - reflexivity.
  - discriminate.
Defined.

(** C2 as stated fails: with the option naming a file that does not exist
    and the environment variable naming one that does, the resolver does
    not return the option's value, it raises; and with the option given as
    the empty string, it is the environment's path that is returned. *)
Lemma credentials_path_flag_not_returned :
  truthy (_credentials_key_file (MkFCMClient (Some Scenario.missing_path))) = true
  /\ Scenario.env_set !! GOOGLE_APPLICATION_CREDENTIALS = Some Scenario.env_path
  /\ path_exists Scenario.world Scenario.env_path = true
  /\ fst (credentials_path Scenario.world (MkFCMClient (Some Scenario.missing_path))
            (initial_state Scenario.env_set))
     = Raise (Exc (PyExc FileNotFoundError
                     ("Credentials file not found: " +:+ Scenario.missing_path)))
  /\ fst (credentials_path Scenario.world (MkFCMClient (Some Scenario.missing_path))
            (initial_state Scenario.env_set))
     <> Ok Scenario.missing_path
  /\ fst (credentials_path Scenario.world (MkFCMClient (Some EmptyString))
            (initial_state Scenario.env_set))
     = Ok Scenario.env_path.
Proof.
  assert (Hrun : fst (credentials_path Scenario.world
                        (MkFCMClient (Some Scenario.missing_path))
                        (initial_state Scenario.env_set))
                 = Raise (Exc (PyExc FileNotFoundError
                                 ("Credentials file not found: "
                                    +:+ Scenario.missing_path)))).
  { rewrite credentials_path_eq. reflexivity. }
  split; [reflexivity|].
  split; [vm_compute; reflexivity|].
  split; [reflexivity|].
  split; [exact Hrun|].
  split; [rewrite Hrun; discriminate|].
  vm_compute. reflexivity.
Qed.


(** ** The credential payload and its accessors *)

Lemma credentials_info_cached (w : World) (self : FCMClient) (s : State) :
  _credentials_info s <> PNone ->
  credentials_info w self s = (Ok (_credentials_info s), s).
Proof.
  intros Hloaded. unfold credentials_info. unfold_m.
  destruct (_credentials_info s) eqn:Hinfo; [contradiction | rewrite Hinfo; reflexivity ..].
Qed.

Lemma project_id_loaded (w : World) (self : FCMClient) (s : State) kvs :
  _credentials_info s = PDict kvs ->
  project_id w self s
  = (Ok (match kvs with [] => PStr EmptyString | _ => field "project_id" kvs end), s).
Proof.
  intros Hloaded.
  assert (Hcached : credentials_info w self s = (Ok (PDict kvs), s)).
  { rewrite credentials_info_cached; rewrite Hloaded; [reflexivity | discriminate]. }
  unfold project_id, mbind, M_bind. rewrite Hcached.
  destruct kvs as [|kv rest]; [reflexivity|].
  cbn [py_bool negb bool_decide]. rewrite bool_decide_eq_false_2 by discriminate.
  cbn [negb]. rewrite Hcached. reflexivity.
Qed.

Lemma service_account_email_loaded (w : World) (self : FCMClient) (s : State) kvs :
  _credentials_info s = PDict kvs ->
  service_account_email w self s
  = (Ok (match kvs with [] => PStr EmptyString | _ => field "client_email" kvs end), s).
Proof.
  intros Hloaded.
  assert (Hcached : credentials_info w self s = (Ok (PDict kvs), s)).
  { rewrite credentials_info_cached; rewrite Hloaded; [reflexivity | discriminate]. }
  unfold service_account_email, mbind, M_bind. rewrite Hcached.
  destruct kvs as [|kv rest]; [reflexivity|].
  cbn [py_bool negb bool_decide]. rewrite bool_decide_eq_false_2 by discriminate.
  cbn [negb]. rewrite Hcached. reflexivity.
Qed.

(** C7, as the code has it.  Once the payload is loaded and is a JSON
    object, [project_id] and [service_account_email] return without raising
    and without touching the state.  On a non-empty object they return the
    field, and ["N/A"] when the object has no such field; on the empty
    object [{}] they return the empty string. *)
Theorem accessors_on_loaded_object (w : World) (self : FCMClient) (s : State)
    (kvs : list (string * pyval)) :
  _credentials_info s = PDict kvs ->
  project_id w self s
    = (Ok (match kvs with [] => PStr EmptyString | _ => field "project_id" kvs end), s)
  /\ service_account_email w self s
    = (Ok (match kvs with [] => PStr EmptyString | _ => field "client_email" kvs end), s)
  /\ (kvs <> [] -> assoc "project_id" kvs = None ->
      fst (project_id w self s) = Ok (PStr "N/A"))
  /\ (kvs <> [] -> assoc "client_email" kvs = None ->
      fst (service_account_email w self s) = Ok (PStr "N/A")).
Proof.
  intros Hloaded.
  pose proof (project_id_loaded w self s kvs Hloaded) as Hpid.
  pose proof (service_account_email_loaded w self s kvs Hloaded) as Hmail.
  split; [exact Hpid|]. split; [exact Hmail|]. split.
  - intros Hne Habsent. rewrite Hpid. destruct kvs; [contradiction|].
    unfold field. rewrite Habsent. reflexivity.
  - intros Hne Habsent. rewrite Hmail. destruct kvs; [contradiction|].
    unfold field. rewrite Habsent. reflexivity.
Qed.

Lemma accessors_on_loaded_object_witness :
  fst (project_id Scenario.world (MkFCMClient None)
         (MkState ∅ false (PDict [("client_email", PStr "x@y.iam")]) false [] [] []))
    = Ok (PStr "N/A").
Proof.
  apply (proj1 (proj2 (proj2 (accessors_on_loaded_object Scenario.world (MkFCMClient None)
           (MkState ∅ false (PDict [("client_email", PStr "x@y.iam")]) false [] [] [])
           [("client_email", PStr "x@y.iam")] eq_refl)))).
  - discriminate.
  - reflexivity.
Defined.

(** C7 as stated fails: a credential file holding the empty object [{}]
    loads, has no [project_id] field, and [project_id] returns the empty
    string, not ["N/A"]; and on a file holding a JSON list the accessor
    raises [AttributeError]. *)
Lemma project_id_of_empty_object :
  fst (credentials_info Scenario.world (MkFCMClient (Some Scenario.empty_path))
         (initial_state Scenario.env_unset))
    = Ok (PDict [])
  /\ assoc "project_id" [] = None
  /\ fst (project_id Scenario.world (MkFCMClient (Some Scenario.empty_path))
            (initial_state Scenario.env_unset))
     = Ok (PStr EmptyString)
  /\ fst (project_id Scenario.world (MkFCMClient (Some Scenario.empty_path))
            (initial_state Scenario.env_unset))
     <> Ok (PStr "N/A")
  /\ fst (project_id Scenario.world (MkFCMClient (Some Scenario.list_path))
            (initial_state Scenario.env_unset))
     = Raise (Exc (PyExc AttributeError "'list' object has no attribute 'get'")).
Proof.
  assert (Hrun : fst (project_id Scenario.world (MkFCMClient (Some Scenario.empty_path))
                        (initial_state Scenario.env_unset))
                 = Ok (PStr EmptyString)).
  { vm_compute. reflexivity. }
  split; [vm_compute; reflexivity|].
  split; [reflexivity|].
  split; [exact Hrun|].
  split; [rewrite Hrun; discriminate|].
  vm_compute. reflexivity.
Qed.

(** ** Session initialisation *)

Section Session.

Variable w : World.
Variable self : FCMClient.

Lemma initialize_noop (s : State) :
  _initialized s = true \/ fb_apps s = true ->
  initialize w self s = (Ok tt, s).
Proof.
  intros H. unfold initialize. unfold_m.
  destruct H as [H|H]; rewrite H; [reflexivity|].
  destruct (_initialized s); reflexivity.
Qed.

Lemma times_noop (n : nat) (s : State) :
  _initialized s = true \/ fb_apps s = true ->
  times n (initialize w self) s = (Ok tt, s).
Proof.
  intros H. induction n as [|n IH]; [reflexivity|].
  cbn [times]. unfold mbind, M_bind. rewrite (initialize_noop s H). exact IH.
Qed.

(** The first call, from a state without an app. *)
Lemma initialize_fresh (s : State) :
  _initialized s = false -> fb_apps s = false ->
  let r := initialize w self s in
  initializations (snd r) = initializations s ++ [adc_at_init self s]
  /\ sent (snd r) = sent s
  /\ stdout (snd r) = stdout s
  /\ stderr (snd r) = stderr s
  /\ (fst r = Ok tt -> _initialized (snd r) = true)
  /\ (truthy (_credentials_key_file self) = true ->
      environ (snd r) !! GOOGLE_APPLICATION_CREDENTIALS = _credentials_key_file self).
Proof.
  intros Hini Happs. unfold initialize, firebase_initialize_app, adc_at_init,
    initializations, sent.
  unfold_m. rewrite Hini, Happs. cbn.
  destruct (truthy (_credentials_key_file self)) eqn:Hflag; cbn; rewrite ?Happs.
  - destruct (truthy_Some _ Hflag) as (p & Hp & _). rewrite Hp. cbn.
    destruct (initialize_app w _); cbn;
      rewrite !omap_app, ?lookup_insert_eq; cbn; rewrite ?app_nil_r;
      repeat split; done.
  - destruct (initialize_app w _); cbn;
      rewrite !omap_app; cbn; rewrite ?app_nil_r; repeat split; done.
Qed.

End Session.

(** C8.  From a state in which the process has no Firebase app yet, any
    number [S n] of calls of [initialize] does what one call does: the same
    outcome and the same final state, with [firebase_admin.initialize_app]
    called exactly once.  After a call that returned, a further call is a
    no-op that leaves the state unchanged.  When [--credentials-key-file]
    was given, the one SDK initialisation already finds that path in
    [GOOGLE_APPLICATION_CREDENTIALS]. *)
Theorem initialize_idempotent (w : World) (self : FCMClient) (s : State) (n : nat) :
  _initialized s = false -> fb_apps s = false ->
  times (S n) (initialize w self) s = initialize w self s
  /\ initializations (snd (times (S n) (initialize w self) s))
     = initializations s ++ [adc_at_init self s]
  /\ (fst (initialize w self s) = Ok tt ->
      initialize w self (snd (initialize w self s))
      = (Ok tt, snd (initialize w self s)))
  /\ (truthy (_credentials_key_file self) = true ->
      adc_at_init self s = _credentials_key_file self
      /\ environ (snd (initialize w self s)) !! GOOGLE_APPLICATION_CREDENTIALS
         = _credentials_key_file self).
Proof.
  intros Hini Happs.
  destruct (initialize_fresh w self s Hini Happs)
    as (Hcount & _ & _ & _ & Hlatch & Henv).
  assert (Hagain : fst (initialize w self s) = Ok tt ->
            forall k, times k (initialize w self) (snd (initialize w self s))
                      = (Ok tt, snd (initialize w self s))).
  { intros Hok k. apply times_noop. left. apply Hlatch, Hok. }
  assert (Hsame : times (S n) (initialize w self) s = initialize w self s).
  { cbn [times]. unfold mbind, M_bind.
    destruct (initialize w self s) as [[[]|sg] s1] eqn:Hfirst; [|reflexivity].
    apply (Hagain eq_refl n). }
  split; [exact Hsame|]. split; [rewrite Hsame; exact Hcount|]. split.
  - intros Hok. apply initialize_noop. left. apply Hlatch, Hok.
  - intros Hflag. split; [|apply Henv, Hflag].
    unfold adc_at_init. rewrite Hflag.
    destruct (truthy_Some _ Hflag) as (p & Hp & _). rewrite Hp. reflexivity.
Qed.

Lemma initialize_idempotent_witness :
  times 3 (initialize Scenario.world (MkFCMClient (Some Scenario.sa_path)))
      (initial_state Scenario.env_set)
    = initialize Scenario.world (MkFCMClient (Some Scenario.sa_path))
        (initial_state Scenario.env_set)
  /\ initializations
       (snd (times 3 (initialize Scenario.world (MkFCMClient (Some Scenario.sa_path)))
               (initial_state Scenario.env_set)))
     = [Some Scenario.sa_path].
Proof.
  destruct (initialize_idempotent Scenario.world (MkFCMClient (Some Scenario.sa_path))
              (initial_state Scenario.env_set) 2 eq_refl eq_refl)
    as (Hsame & Hcount & _).
  split; [exact Hsame | exact Hcount].
Defined.

(** ** Frame lemmas: what a computation leaves alone *)

Section Frame.

Context {X : Type} (f : State -> X).

Lemma preserves_ret {A} (a : A) : preserves f (mret a).
Proof. intros s. reflexivity. Qed.

Lemma preserves_gets {A} (g : State -> A) : preserves f (gets g).
Proof. intros s. reflexivity. Qed.

Lemma preserves_raise {A} c msg : preserves f (@raise A c msg).
Proof. intros s. reflexivity. Qed.

Lemma preserves_sys_exit {A} code : preserves f (@sys_exit A code).
Proof. intros s. reflexivity. Qed.

Lemma preserves_lift {A} (r : pyexc + A) : preserves f (lift r).
Proof. intros s. destruct r; reflexivity. Qed.

Lemma preserves_modify (g : State -> State) :
  (forall s, f (g s) = f s) -> preserves f (modify g).
Proof. intros Hg s. apply Hg. Qed.

Lemma preserves_bind {A B} (m : M A) (k : A -> M B) :
  preserves f m -> (forall a, preserves f (k a)) -> preserves f (m ≫= k).
Proof.
  intros Hm Hk s. unfold mbind, M_bind. specialize (Hm s).
  destruct (m s) as [[a|sg] s1]; cbn in *; [|exact Hm].
  rewrite (Hk a s1). exact Hm.
Qed.

Lemma preserves_try {A} (body : M A) clauses :
  preserves f body ->
  (forall e handler, clauses e = Some handler -> preserves f handler) ->
  preserves f (try_except body clauses).
Proof.
  intros Hbody Hclauses s. unfold try_except. specialize (Hbody s).
  destruct (body s) as [[a|[e|code]] s1]; cbn in *; try exact Hbody.
  destruct (clauses e) as [handler|] eqn:Hc; [|exact Hbody].
  rewrite (Hclauses e handler Hc s1). exact Hbody.
Qed.

End Frame.

Lemma quiet_ret {A} (a : A) : quiet (mret a).
Proof. intros s c. discriminate. Qed.

Lemma quiet_gets {A} (g : State -> A) : quiet (gets g).
Proof. intros s c. discriminate. Qed.

Lemma quiet_modify (g : State -> State) : quiet (modify g).
Proof. intros s c. discriminate. Qed.

Lemma quiet_raise {A} c msg : quiet (@raise A c msg).
Proof. intros s c'. discriminate. Qed.

Lemma quiet_lift {A} (r : pyexc + A) : quiet (lift r).
Proof. intros s c. destruct r; discriminate. Qed.

Lemma quiet_bind {A B} (m : M A) (k : A -> M B) :
  quiet m -> (forall a, quiet (k a)) -> quiet (m ≫= k).
Proof.
  intros Hm Hk s c. unfold mbind, M_bind. specialize (Hm s).
  destruct (m s) as [[a|sg] s1]; cbn in *; [apply Hk|].
  intros Heq. apply (Hm c). congruence.
Qed.

Lemma quiet_try {A} (body : M A) clauses :
  quiet body ->
  (forall e handler, clauses e = Some handler -> quiet handler) ->
  quiet (try_except body clauses).
Proof.
  intros Hbody Hclauses s c. unfold try_except. specialize (Hbody s).
  destruct (body s) as [[a|[e|code]] s1]; cbn in *; try discriminate.
  - destruct (clauses e) as [handler|] eqn:Hc; [|discriminate].
    apply (Hclauses e handler Hc).
  - exfalso. apply (Hbody code). reflexivity.
Qed.

(** Both kinds of goal, by the structure of the computation. *)
Ltac frame_step :=
  first
    [ apply preserves_ret | apply preserves_gets | apply preserves_raise
    | apply preserves_sys_exit | apply preserves_lift
    | apply quiet_ret | apply quiet_gets | apply quiet_modify
    | apply quiet_raise | apply quiet_lift
    | match goal with
      | |- preserves _ (match ?x with _ => _ end) => destruct x
      | |- quiet (match ?x with _ => _ end) => destruct x
      | |- preserves _ (if ?b then _ else _) => destruct b
      | |- quiet (if ?b then _ else _) => destruct b
      | |- preserves _ (let _ := _ in _) => cbv zeta
      | |- quiet (let _ := _ in _) => cbv zeta
      end
    | apply preserves_modify; intros ?; cbn;
      rewrite ?omap_app; cbn; rewrite ?app_nil_r; reflexivity
    | apply preserves_bind; [|intros ?]
    | apply quiet_bind; [|intros ?]
    | progress unfold loads, items, get, credentials_path, credentials_info,
        initialize, firebase_initialize_app, firebase_get_app ].

Ltac frame := repeat frame_step.

Lemma quiet_credentials_path w self : quiet (credentials_path w self).
Proof. unfold credentials_path. frame. Qed.

Lemma quiet_credentials_info w self : quiet (credentials_info w self).
Proof. unfold credentials_info. frame. Qed.

Lemma quiet_project_id w self : quiet (project_id w self).
Proof. unfold project_id. frame. Qed.

Lemma quiet_service_account_email w self : quiet (service_account_email w self).
Proof. unfold service_account_email. frame. Qed.

Lemma quiet_initialize w self : quiet (initialize w self).
Proof. unfold initialize. frame. Qed.

Lemma initialize_sent w self : preserves sent (initialize w self).
Proof. unfold initialize. frame. Qed.

Lemma initialize_stdout w self : preserves stdout (initialize w self).
Proof. unfold initialize. frame. Qed.

Lemma initialize_stderr w self : preserves stderr (initialize w self).
Proof. unfold initialize. frame. Qed.

Lemma sent_emit_send (m : Message) (d : bool) (s : State) :
  sent (snd (emit (EvSend m d) s)) = sent s ++ [(m, d)].
Proof. unfold sent. cbn. rewrite omap_app. reflexivity. Qed.

(** ** The two send operations *)

Lemma send_notification_eq w self tok t b d img dry s :
  send_notification w self tok t b d img dry s =
  match initialize w self s with
  | (Ok _, s1) =>
      (match messaging_send w (MkMessage (Some (MkNotification t b img)) tok d) dry with
       | inl e => Raise (Exc e)
       | inr response => Ok response
       end,
       snd (emit (EvSend (MkMessage (Some (MkNotification t b img)) tok d) dry) s1))
  | (Raise sg, s1) => (Raise sg, s1)
  end.
Proof.
  unfold send_notification, mbind, M_bind.
  destruct (initialize w self s) as [[[]|sg] s1]; [|reflexivity].
  cbn. destruct (messaging_send w _ dry); reflexivity.
Qed.

Lemma send_data_message_eq w self tok d dry s :
  send_data_message w self tok d dry s =
  match initialize w self s with
  | (Ok _, s1) =>
      match d with
      | PDict kvs =>
          (match messaging_send w (MkMessage None tok (str_values w kvs)) dry with
           | inl e => Raise (Exc e)
           | inr response => Ok response
           end,
           snd (emit (EvSend (MkMessage None tok (str_values w kvs)) dry) s1))
      | _ => (Raise (Exc (PyExc AttributeError (no_attribute d "items"))), s1)
      end
  | (Raise sg, s1) => (Raise sg, s1)
  end.
Proof.
  unfold send_data_message, mbind, M_bind.
  destruct (initialize w self s) as [[[]|sg] s1]; [|reflexivity].
  destruct d; try reflexivity.
  cbn. destruct (messaging_send w _ dry); reflexivity.
Qed.

Lemma quiet_send_notification w self tok t b d img dry :
  quiet (send_notification w self tok t b d img dry).
Proof. unfold send_notification. frame. Qed.

Lemma quiet_send_data_message w self tok d dry :
  quiet (send_data_message w self tok d dry).
Proof. unfold send_data_message. frame. Qed.

(** The messages a send operation hands over: none if [initialize]
    raised, else the one it built. *)
Lemma send_notification_sent w self tok t b d img dry s :
  sent (snd (send_notification w self tok t b d img dry s)) =
  sent s ++
  match fst (initialize w self s) with
  | Ok _ => [(MkMessage (Some (MkNotification t b img)) tok d, dry)]
  | Raise _ => []
  end.
Proof.
  rewrite send_notification_eq. pose proof (initialize_sent w self s) as Hframe.
  destruct (initialize w self s) as [[[]|sg] s1]; cbn [fst snd] in *.
  - rewrite sent_emit_send, Hframe. reflexivity.
  - rewrite Hframe, app_nil_r. reflexivity.
Qed.

Lemma send_data_message_sent w self tok kvs dry s :
  sent (snd (send_data_message w self tok (PDict kvs) dry s)) =
  sent s ++
  match fst (initialize w self s) with
  | Ok _ => [(MkMessage None tok (str_values w kvs), dry)]
  | Raise _ => []
  end.
Proof.
  rewrite send_data_message_eq. pose proof (initialize_sent w self s) as Hframe.
  destruct (initialize w self s) as [[[]|sg] s1]; cbn [fst snd] in *.
  - rewrite sent_emit_send, Hframe. reflexivity.
  - rewrite Hframe, app_nil_r. reflexivity.
Qed.

(** ** The handlers *)

Lemma handle_data_only_eq w a s :
  handle_data_only w a s =
  match data_only a with
  | None =>
      (Raise (Exc (PyExc TypeError
         "the JSON object must be str, bytes or bytearray, not NoneType")), s)
  | Some text =>
      match json_loads w text with
      | inl msg =>
          (Raise (SystemExit 1),
           snd (print ("Error: Invalid JSON in --data-only: " +:+ msg) s))
      | inr v =>
          match send_data_message w (client a) (token a) v (dry_run a) s with
          | (Ok response, s1) =>
              (Ok tt,
               snd ((if dry_run a then
                       print (nl +:+ "✓ Dry run successful! Data message is valid.");;
                       print ("  Message ID (dry run): " +:+ response)
                     else
                       print (nl +:+ "✓ Data message sent successfully!");;
                       print ("  Message ID: " +:+ response)) s1))
          | (Raise (Exc e), s1) =>
              (Raise (SystemExit 1),
               snd (print (nl +:+ "✗ Error sending data message: " +:+ exc_msg e) s1))
          | (Raise (SystemExit c), s1) => (Raise (SystemExit c), s1)
          end
      end
  end.
Proof.
  unfold handle_data_only, try_except, loads, mbind, M_bind.
  destruct (data_only a) as [text|]; [|reflexivity].
  destruct (json_loads w text) as [msg|v]; [reflexivity|].
  cbn. destruct (send_data_message w _ _ v _ s) as [[response|[e|c]] s1]; try reflexivity.
  destruct (dry_run a); reflexivity.
Qed.

Lemma handle_notification_eq w a s :
  handle_notification w a s =
  match notification_data w a s with
  | (Ok d, s0) =>
      match send_notification w (client a) (token a) (title a) (body a) d
              (image a) (dry_run a) s0 with
      | (Ok response, s1) =>
          (Ok tt,
           snd ((if dry_run a then
                   print (nl +:+ "✓ Dry run successful! Message is valid.");;
                   print ("  Message ID (dry run): " +:+ response)
                 else
                   print (nl +:+ "✓ Notification sent successfully!");;
                   print ("  Message ID: " +:+ response)) s1))
      | (Raise (Exc e), s1) =>
          (Raise (SystemExit 1),
           snd (print
                  (match exc_cls e with
                   | UnregisteredError =>
                       nl +:+ "✗ Error: The FCM token is not registered (device may have uninstalled the app)"
                   | SenderIdMismatchError =>
                       nl +:+ "✗ Error: The FCM token does not match the sender ID (wrong project?)"
                   | _ => nl +:+ "✗ Error sending notification: " +:+ exc_msg e
                   end) s1))
      | (Raise (SystemExit c), s1) => (Raise (SystemExit c), s1)
      end
  | (Raise sg, s0) => (Raise sg, s0)
  end.
Proof.
  unfold handle_notification, notification_data, try_except, loads, mbind, M_bind.
  destruct (truthy (data a)) eqn:Hdata.
  - destruct (data a) as [text|]; [|discriminate].
    destruct (json_loads w text) as [msg|v]; [reflexivity|].
    destruct v; try reflexivity.
    all: cbn;
      destruct (send_notification w _ _ _ _ _ _ _ s) as [[response|[e|c]] s1];
      try reflexivity.
    all: try (destruct (dry_run a); reflexivity).
    all: destruct (exc_cls e); reflexivity.
  - cbn.
    destruct (send_notification w _ _ _ _ _ _ _ s) as [[response|[e|c]] s1];
      try reflexivity.
    + destruct (dry_run a); reflexivity.
    + destruct (exc_cls e); reflexivity.
Qed.

(** ** The dispatcher *)

Lemma run_mode w a : run w a = mode_action w (select_mode a) a.
Proof.
  unfold run, select_mode, modes_in_order, matches.
  destruct (info a || access_token a); [reflexivity|].
  destruct (info_http a || access_token_http a); [reflexivity|].
  destruct (truthy (data_only a)); [reflexivity|].
  destruct (truthy (token a)); reflexivity.
Qed.

Lemma select_mode_cases a :
  select_mode a =
  if info a || access_token a then ShowInfoAdmin
  else if info_http a || access_token_http a then ShowInfoHttp
  else if truthy (data_only a) then SendDataOnly
  else if truthy (token a) then SendNotification
  else Help.
Proof.
  unfold select_mode, modes_in_order, matches.
  destruct (info a || access_token a); [reflexivity|].
  destruct (info_http a || access_token_http a); [reflexivity|].
  destruct (truthy (data_only a)); [reflexivity|].
  destruct (truthy (token a)); reflexivity.
Qed.

Lemma run_data_only w a :
  info a || access_token a = false ->
  info_http a || access_token_http a = false ->
  truthy (data_only a) = true -> truthy (token a) = true ->
  run w a = handle_data_only w a.
Proof.
  intros H1 H2 H3 H4. unfold run. rewrite H1, H2, H3, H4. reflexivity.
Qed.

Lemma run_notification w a :
  info a || access_token a = false ->
  info_http a || access_token_http a = false ->
  truthy (data_only a) = false -> truthy (token a) = true ->
  truthy (title a) = true -> truthy (body a) = true ->
  run w a = handle_notification w a.
Proof.
  intros H1 H2 H3 H4 H5 H6. unfold run. rewrite H1, H2, H3, H4, H5, H6. reflexivity.
Qed.

Lemma run_usage_error w a s :
  usage_error a = true ->
  run w a s = parser_error w (usage_message a) s.
Proof.
  unfold usage_error, usage_message, run. intros H.
  destruct (info a || access_token a); [discriminate|].
  destruct (info_http a || access_token_http a); [discriminate|].
  cbn in H. destruct (truthy (data_only a)).
  - rewrite H. reflexivity.
  - destruct (truthy (token a)); [|discriminate]. cbn in H. rewrite H. reflexivity.
Qed.

Lemma main_sent w a env :
  sent (snd (main w a env)) = sent (snd (run w a (initial_state env))).
Proof.
  unfold main. destruct (run w a (initial_state env)) as [[[]|[e|c]] s]; reflexivity.
Qed.

Lemma main_stdout w a env :
  stdout (snd (main w a env)) = stdout (snd (run w a (initial_state env))).
Proof.
  unfold main. destruct (run w a (initial_state env)) as [[[]|[e|c]] s]; reflexivity.
Qed.

Lemma handle_notification_sent w a s text kvs :
  data a = Some text -> text <> EmptyString ->
  json_loads w text = inr (PDict kvs) ->
  sent (snd (handle_notification w a s)) =
  sent s ++
  match fst (initialize w (client a) s) with
  | Ok _ => [(MkMessage (Some (MkNotification (title a) (body a) (image a))) (token a)
                (PDict (map (fun kv => (fst kv, PStr (py_str w (snd kv)))) kvs)),
              dry_run a)]
  | Raise _ => []
  end.
Proof.
  intros Hdata Hne Hloads.
  pose proof (send_notification_sent w (client a) (token a) (title a) (body a)
                (str_values w kvs) (image a) (dry_run a) s) as Hsent.
  rewrite handle_notification_eq. unfold notification_data.
  rewrite Hdata, (truthy_intro text Hne), Hloads. cbn [mret M_ret].
  destruct (send_notification w _ _ _ _ _ _ _ s) as [[response|[e|c]] s1];
    cbn [fst snd] in *; try exact Hsent.
  destruct (dry_run a); exact Hsent.
Qed.

Lemma handle_data_only_sent w a s text kvs :
  data_only a = Some text ->
  json_loads w text = inr (PDict kvs) ->
  sent (snd (handle_data_only w a s)) =
  sent s ++
  match fst (initialize w (client a) s) with
  | Ok _ => [(MkMessage None (token a)
                (PDict (map (fun kv => (fst kv, PStr (py_str w (snd kv)))) kvs)),
              dry_run a)]
  | Raise _ => []
  end.
Proof.
  intros Hdata Hloads.
  pose proof (send_data_message_sent w (client a) (token a) kvs (dry_run a) s) as Hsent.
  rewrite handle_data_only_eq, Hdata, Hloads.
  destruct (send_data_message w _ _ _ _ s) as [[response|[e|c]] s1];
    cbn [fst snd] in *; try exact Hsent.
  destruct (dry_run a); exact Hsent.
Qed.

(** C10.  [send_notification] hands [messaging.send] a message whose data
    is the very object it was given, whatever that object holds (and no
    message if [initialize] raised); [send_data_message] replaces every
    value of the mapping it was given by its [str]; for [--data] it is
    [handle_notification] that does so, before it calls
    [send_notification]. *)
Theorem send_notification_does_not_coerce (w : World) (s : State) :
  (forall self tok t b d img dry,
     sent (snd (send_notification w self tok t b d img dry s)) =
     sent s ++
     match fst (initialize w self s) with
     | Ok _ => [(MkMessage (Some (MkNotification t b img)) tok d, dry)]
     | Raise _ => []
     end)
  /\
  (forall self tok kvs dry,
     sent (snd (send_data_message w self tok (PDict kvs) dry s)) =
     sent s ++
     match fst (initialize w self s) with
     | Ok _ => [(MkMessage None tok
                   (PDict (map (fun kv => (fst kv, PStr (py_str w (snd kv)))) kvs)), dry)]
     | Raise _ => []
     end)
  /\
  (forall a text kvs,
     data a = Some text -> text <> EmptyString ->
     json_loads w text = inr (PDict kvs) ->
     sent (snd (handle_notification w a s)) =
     sent (snd (send_notification w (client a) (token a) (title a) (body a)
                  (PDict (map (fun kv => (fst kv, PStr (py_str w (snd kv)))) kvs))
                  (image a) (dry_run a) s))).
Proof.
  split; [|split].
  - intros. apply send_notification_sent.
  - intros. apply send_data_message_sent.
  - intros a text kvs Hdata Hne Hloads.
    rewrite (handle_notification_sent w a s text kvs Hdata Hne Hloads).
    rewrite send_notification_sent. reflexivity.
Qed.

Lemma send_notification_does_not_coerce_witness :
  sent (snd (send_notification Scenario.world (MkFCMClient None) (Some "abc")
               (Some "Hello") (Some "World") (PDict [("n", PInt 1)]) None false
               (initial_state Scenario.env_unset)))
    = [(MkMessage (Some (MkNotification (Some "Hello") (Some "World") None))
          (Some "abc") (PDict [("n", PInt 1)]), false)]
  /\
  sent (snd (handle_notification Scenario.world
               (MkArgs None false false false false (Some "abc") (Some "Hello")
                  (Some "World") (Some Scenario.n1_text) None None false)
               (initial_state Scenario.env_unset)))
    = [(MkMessage (Some (MkNotification (Some "Hello") (Some "World") None))
          (Some "abc") (PDict [("n", PStr "1")]), false)].
Proof.
  destruct (send_notification_does_not_coerce Scenario.world
              (initial_state Scenario.env_unset)) as (Hraw & _ & Hcli).
  split.
  - apply (Hraw (MkFCMClient None) (Some "abc") (Some "Hello") (Some "World")
             (PDict [("n", PInt 1)]) None false).
  - rewrite (Hcli (MkArgs None false false false false (Some "abc") (Some "Hello")
                     (Some "World") (Some Scenario.n1_text) None None false)
               Scenario.n1_text [("n", PInt 1)] eq_refl);
      [ apply (Hraw (MkFCMClient None) (Some "abc") (Some "Hello") (Some "World")
                 (PDict [("n", PStr "1")]) None false)
      | discriminate
      | reflexivity ].
Defined.

(** C1.  In data-only mode and in notification mode, when the payload text
    decodes to a mapping, the one message handed to [messaging.send]
    carries that mapping with the same keys in the same order and each
    value replaced by its [str] (so [5] becomes ["5"]); no message is
    handed over only when [initialize] raised first. *)
Theorem payload_values_are_stringified (w : World) (a : Args)
    (env : gmap string string) (text : string) (kvs : list (string * pyval)) :
  info a || access_token a = false ->
  info_http a || access_token_http a = false ->
  truthy (token a) = true ->
  text <> EmptyString ->
  json_loads w text = inr (PDict kvs) ->
  (data_only a = Some text ->
   sent (snd (main w a env)) =
   match fst (initialize w (client a) (initial_state env)) with
   | Ok _ => [(MkMessage None (token a)
                 (PDict (map (fun kv => (fst kv, PStr (py_str w (snd kv)))) kvs)),
               dry_run a)]
   | Raise _ => []
   end)
  /\
  (truthy (data_only a) = false ->
   truthy (title a) = true -> truthy (body a) = true ->
   data a = Some text ->
   sent (snd (main w a env)) =
   match fst (initialize w (client a) (initial_state env)) with
   | Ok _ => [(MkMessage (Some (MkNotification (title a) (body a) (image a))) (token a)
                 (PDict (map (fun kv => (fst kv, PStr (py_str w (snd kv)))) kvs)),
               dry_run a)]
   | Raise _ => []
   end)
  /\ py_str w (PInt 5) = "5".
Proof.
  intros Hinfo Hhttp Htoken Hne Hloads. split; [|split].
  - intros Hdata. rewrite main_sent.
    rewrite (run_data_only w a Hinfo Hhttp); [| rewrite Hdata; apply truthy_intro, Hne | exact Htoken].
    rewrite (handle_data_only_sent w a _ text kvs Hdata Hloads). reflexivity.
  - intros Hmode Htitle Hbody Hdata. rewrite main_sent.
    rewrite (run_notification w a Hinfo Hhttp Hmode Htoken Htitle Hbody).
    rewrite (handle_notification_sent w a _ text kvs Hdata Hne Hloads). reflexivity.
  - reflexivity.
Qed.

Lemma payload_values_are_stringified_witness :
  sent (snd (main Scenario.world
               (MkArgs None false false false false (Some "abc") None None None
                  (Some Scenario.n1_text) None false)
               Scenario.env_unset))
    = [(MkMessage None (Some "abc") (PDict [("n", PStr "1")]), false)]
  /\
  sent (snd (main Scenario.world
               (MkArgs None false false false false (Some "abc") (Some "Hello")
                  (Some "World") (Some Scenario.n1_text) None None true)
               Scenario.env_unset))
    = [(MkMessage (Some (MkNotification (Some "Hello") (Some "World") None))
          (Some "abc") (PDict [("n", PStr "1")]), true)].
Proof.
  assert (Hne : Scenario.n1_text <> EmptyString) by discriminate.
  split.
  - apply (proj1 (payload_values_are_stringified Scenario.world
                    (MkArgs None false false false false (Some "abc") None None None
                       (Some Scenario.n1_text) None false)
                    Scenario.env_unset Scenario.n1_text [("n", PInt 1)]
                    eq_refl eq_refl eq_refl Hne eq_refl)).
    reflexivity.
  - apply (proj1 (proj2 (payload_values_are_stringified Scenario.world
                    (MkArgs None false false false false (Some "abc") (Some "Hello")
                       (Some "World") (Some Scenario.n1_text) None None true)
                    Scenario.env_unset Scenario.n1_text [("n", PInt 1)]
                    eq_refl eq_refl eq_refl Hne eq_refl)));
      reflexivity.
Defined.

(** C9.  A payload text that decodes to something other than a mapping
    (the text [5], say): in notification mode [handle_notification] raises
    [AttributeError] from its coercion step, nothing catches it, nothing
    has been printed or sent, and the interpreter ends the process with a
    traceback; in data-only mode the same value is reported on stdout as a
    send error and the process exits with status 1, again with nothing
    sent. *)
Theorem non_object_payload (w : World) (env : gmap string string)
    (text : string) (v : pyval) :
  json_loads w text = inr v ->
  (forall kvs, v <> PDict kvs) ->
  text <> EmptyString ->
  (forall a,
     info a || access_token a = false ->
     info_http a || access_token_http a = false ->
     truthy (data_only a) = false ->
     truthy (token a) = true -> truthy (title a) = true -> truthy (body a) = true ->
     data a = Some text ->
     run w a (initial_state env)
       = (Raise (Exc (PyExc AttributeError (no_attribute v "items"))), initial_state env)
     /\ fst (main w a env) = 1%Z
     /\ stdout (snd (main w a env)) = []
     /\ sent (snd (main w a env)) = [])
  /\
  (forall a,
     info a || access_token a = false ->
     info_http a || access_token_http a = false ->
     truthy (token a) = true ->
     data_only a = Some text ->
     fst (run w a (initial_state env)) = Raise (SystemExit 1)
     /\ fst (main w a env) = 1%Z
     /\ sent (snd (main w a env)) = []
     /\ exists msg,
          stdout (snd (main w a env))
            = [nl +:+ "✗ Error sending data message: " +:+ msg]
          /\ (fst (initialize w (client a) (initial_state env)) = Ok tt ->
              msg = no_attribute v "items")).
Proof.
  intros Hloads Hshape Hne. split.
  - intros a Hinfo Hhttp Hmode Htoken Htitle Hbody Hdata.
    assert (Hrun : run w a (initial_state env)
              = (Raise (Exc (PyExc AttributeError (no_attribute v "items"))),
                 initial_state env)).
    { rewrite (run_notification w a Hinfo Hhttp Hmode Htoken Htitle Hbody).
      rewrite handle_notification_eq. unfold notification_data.
      rewrite Hdata, (truthy_intro text Hne), Hloads.
      destruct v; try reflexivity. exfalso. apply (Hshape kvs). reflexivity. }
    split; [exact Hrun|].
    rewrite main_stdout, main_sent. unfold main. rewrite Hrun. repeat split.
  - intros a Hinfo Hhttp Htoken Hdata.
    rewrite main_stdout, main_sent. unfold main.
    rewrite (run_data_only w a Hinfo Hhttp); [| rewrite Hdata; apply truthy_intro, Hne | exact Htoken].
    rewrite handle_data_only_eq, Hdata, Hloads, send_data_message_eq.
    pose proof (initialize_sent w (client a) (initial_state env)) as Hsent.
    pose proof (initialize_stdout w (client a) (initial_state env)) as Hout.
    pose proof (quiet_initialize w (client a) (initial_state env)) as Hquiet.
    destruct (initialize w (client a) (initial_state env)) as [[[]|[e|c]] s1];
      unfold sent in *; cbn in Hsent, Hout.
    + destruct v; try (exfalso; apply (Hshape kvs); reflexivity).
      all: cbn; rewrite Hsent, Hout; repeat split; eexists; split; reflexivity.
    + cbn. rewrite Hsent, Hout. repeat split. eexists. split; [reflexivity|discriminate].
    + exfalso. apply (Hquiet c). reflexivity.
Qed.

Lemma non_object_payload_witness :
  run Scenario.world
      (MkArgs None false false false false (Some "abc") (Some "Hello") (Some "World")
         (Some "5") None None false)
      (initial_state Scenario.env_unset)
    = (Raise (Exc (PyExc AttributeError "'int' object has no attribute 'items'")),
       initial_state Scenario.env_unset)
  /\
  fst (run Scenario.world
         (MkArgs None false false false false (Some "abc") None None None
            (Some "5") None false)
         (initial_state Scenario.env_unset))
    = Raise (SystemExit 1).
Proof.
  assert (Hshape : forall kvs, PInt 5 <> PDict kvs) by discriminate.
  assert (Hne : "5" <> EmptyString) by discriminate.
  destruct (non_object_payload Scenario.world Scenario.env_unset "5" (PInt 5)
              eq_refl Hshape Hne) as (Hnotification & Hdata_only).
  split.
  - apply (Hnotification
             (MkArgs None false false false false (Some "abc") (Some "Hello")
                (Some "World") (Some "5") None None false));
      reflexivity.
  - apply (Hdata_only
             (MkArgs None false false false false (Some "abc") None None None
                (Some "5") None false));
      reflexivity.
Defined.

(** C6.  In a send mode with a required option missing, that is data-only
    mode without [--token], or notification mode without [--title] or
    without [--body], [run] ends in [parser.error]: the usage text and the
    message go to stderr, the process exits with argparse's status 2, and
    no call into the SDK was made, so no message was sent. *)
Theorem missing_option_is_usage_error (w : World) (a : Args) (env : gmap string string) :
  info a || access_token a = false ->
  info_http a || access_token_http a = false ->
  (truthy (data_only a) = true /\ truthy (token a) = false)
  \/ (truthy (data_only a) = false /\ truthy (token a) = true
      /\ (truthy (title a) = false \/ truthy (body a) = false)) ->
  run w a (initial_state env) = parser_error w (usage_message a) (initial_state env)
  /\ fst (main w a env) = 2%Z
  /\ stderr (snd (main w a env))
     = [format_usage w; prog w +:+ ": error: " +:+ usage_message a +:+ nl]
  /\ trace (snd (main w a env)) = []
  /\ sent (snd (main w a env)) = [].
Proof.
  intros Hinfo Hhttp Hmissing.
  assert (Husage : usage_error a = true).
  { unfold usage_error. rewrite Hinfo, Hhttp. cbn.
    destruct Hmissing as [[Hmode Htoken]|(Hmode & Htoken & [Htitle|Hbody])];
      rewrite Hmode, Htoken; cbn; rewrite ?Htitle, ?Hbody;
      [reflexivity | reflexivity | apply orb_true_r]. }
  pose proof (run_usage_error w a (initial_state env) Husage) as Hrun.
  split; [exact Hrun|].
  unfold main. rewrite Hrun. repeat split.
Qed.

Lemma missing_option_is_usage_error_witness :
  fst (main Scenario.world
         (MkArgs None false false false false None None None None
            (Some Scenario.n1_text) None false)
         Scenario.env_set)
    = 2%Z
  /\
  sent (snd (main Scenario.world
               (MkArgs None false false false false (Some "abc") (Some "Hello") None
                  None None None false)
               Scenario.env_set))
    = [].
Proof.
  split.
  - apply (missing_option_is_usage_error Scenario.world
             (MkArgs None false false false false None None None None
                (Some Scenario.n1_text) None false)
             Scenario.env_set eq_refl eq_refl).
    left. split; reflexivity.
  - apply (missing_option_is_usage_error Scenario.world
             (MkArgs None false false false false (Some "abc") (Some "Hello") None
                None None None false)
             Scenario.env_set eq_refl eq_refl).
    right. split; [reflexivity|]. split; [reflexivity|]. right. reflexivity.
Defined.

(** C3.  [run] tries the five modes in the fixed order show-info (admin),
    show-info (HTTP), data-only send, notification send, help, and does
    what the first matching one does: the selected mode matches, none
    before it in the list does, and two invocations that select the same
    mode and agree on what that mode reads run identically, whatever the
    options of the other modes are.  In particular with [--data],
    [--data-only] and [--token] all given and no show-info switch, the
    data-only send runs, and it reads none of [--title], [--body],
    [--data], [--image]. *)
Theorem dispatcher_precedence (w : World) (a : Args) :
  (exists earlier later,
     modes_in_order = earlier ++ select_mode a :: later
     /\ matches a (select_mode a) = true
     /\ Forall (fun m => matches a m = false) earlier)
  /\ run w a = mode_action w (select_mode a) a
  /\ (forall a',
        select_mode a' = select_mode a ->
        same_inputs (select_mode a) a a' ->
        run w a' = run w a)
  /\ (info a || access_token a = false ->
      info_http a || access_token_http a = false ->
      truthy (data a) = true -> truthy (data_only a) = true ->
      truthy (token a) = true ->
      select_mode a = SendDataOnly /\ run w a = handle_data_only w a).
Proof.
  split; [|split; [apply run_mode|split]].
  - rewrite select_mode_cases. unfold modes_in_order.
    destruct (info a || access_token a) eqn:H1.
    { exists [], [ShowInfoHttp; SendDataOnly; SendNotification; Help].
      repeat split; [exact H1 | constructor]. }
    destruct (info_http a || access_token_http a) eqn:H2.
    { exists [ShowInfoAdmin], [SendDataOnly; SendNotification; Help].
      repeat split; [exact H2 | repeat constructor; exact H1]. }
    destruct (truthy (data_only a)) eqn:H3.
    { exists [ShowInfoAdmin; ShowInfoHttp], [SendNotification; Help].
      repeat split; [exact H3 | repeat constructor; assumption]. }
    destruct (truthy (token a)) eqn:H4.
    { exists [ShowInfoAdmin; ShowInfoHttp; SendDataOnly], [Help].
      repeat split; [exact H4 | repeat constructor; assumption]. }
    exists [ShowInfoAdmin; ShowInfoHttp; SendDataOnly; SendNotification], [].
    repeat split. repeat constructor; assumption.
  - intros a' Hsel Hsame. rewrite !run_mode, Hsel.
    destruct (select_mode a); cbn in Hsame |- *.
    + unfold handle_info, client. rewrite Hsame. reflexivity.
    + unfold handle_info, client. rewrite Hsame. reflexivity.
    + destruct Hsame as (Hkey & Hdata & Htoken & Hdry).
      unfold handle_data_only, client. rewrite Hkey, Hdata, Htoken, Hdry. reflexivity.
    + destruct Hsame as (Hkey & Htoken & Htitle & Hbody & Hdata & Himage & Hdry).
      unfold handle_notification, client.
      rewrite Hkey, Htoken, Htitle, Hbody, Hdata, Himage, Hdry. reflexivity.
    + reflexivity.
  - intros Hinfo Hhttp _ Hmode Htoken. split.
    + rewrite select_mode_cases, Hinfo, Hhttp, Hmode. reflexivity.
    + apply run_data_only; assumption.
Qed.

Lemma dispatcher_precedence_witness :
  run Scenario.world
      (MkArgs None false false false false (Some "abc") (Some "Hello") (Some "World")
         (Some "5") (Some Scenario.n1_text) None false)
    = handle_data_only Scenario.world
        (MkArgs None false false false false (Some "abc") (Some "Hello") (Some "World")
           (Some "5") (Some Scenario.n1_text) None false)
  /\
  run Scenario.world
      (MkArgs None false false false false (Some "abc") None None None
         (Some Scenario.n1_text) (Some "https://example.org/i.png") false)
    = run Scenario.world
        (MkArgs None false false false false (Some "abc") (Some "Hello") (Some "World")
           (Some "5") (Some Scenario.n1_text) None false).
Proof.
  destruct (dispatcher_precedence Scenario.world
              (MkArgs None false false false false (Some "abc") (Some "Hello")
                 (Some "World") (Some "5") (Some Scenario.n1_text) None false))
    as (_ & _ & Hignored & Hboth).
  split.
  - apply Hboth; reflexivity.
  - apply Hignored; [reflexivity|]. cbn. repeat split.
Defined.

(** ** How a run can end *)

Ltac clause_inv H :=
  cbv beta in H;
  repeat match type of H with
         | context [if ?b then _ else _] => destruct b
         | context [match ?x with _ => _ end] => destruct x
         end;
  try discriminate H;
  injection H as <-.

Ltac frame_try :=
  repeat first
    [ frame_step
    | apply preserves_try; [|intros ? ? ?Hclause; clause_inv Hclause]
    | apply quiet_try; [|intros ? ? ?Hclause; clause_inv Hclause] ].

Lemma quiet_show_info w self t : quiet (show_info w self t).
Proof.
  unfold show_info, project_id, service_account_email, get_access_token,
    get_access_token_http_api, print, emit.
  frame_try.
Qed.

Lemma show_info_sent w self t : preserves sent (show_info w self t).
Proof.
  unfold show_info, project_id, service_account_email, get_access_token,
    get_access_token_http_api, print, emit, set_credentials_info, setenv,
    set_initialized, set_fb_apps.
  frame_try.
Qed.

Lemma handle_info_sent w a t : preserves sent (handle_info w a t).
Proof.
  unfold handle_info. apply preserves_try; [apply show_info_sent|].
  intros e handler Hclause. clause_inv Hclause. unfold print. frame.
Qed.

Lemma handle_info_reports w a t : reports_exit (handle_info w a t).
Proof.
  intros s c. unfold handle_info, try_except.
  pose proof (quiet_show_info w (client a) t s) as Hquiet.
  destruct (show_info w (client a) t s) as [[[]|[e|c']] s1]; cbn [fst snd] in *.
  - discriminate.
  - destruct (is_OSError (exc_cls e)); [|discriminate].
    unfold mbind, M_bind. cbn. intros [= <-]. split; [reflexivity|].
    eexists. split; [apply last_snoc | reflexivity].
  - exfalso. apply (Hquiet c'). reflexivity.
Qed.

Lemma handle_data_only_reports w a : reports_exit (handle_data_only w a).
Proof.
  intros s c. rewrite handle_data_only_eq.
  destruct (data_only a) as [text|]; [|discriminate].
  destruct (json_loads w text) as [msg|v].
  - cbn. intros [= <-]. split; [reflexivity|].
    eexists. split; [apply last_snoc | reflexivity].
  - pose proof (quiet_send_data_message w (client a) (token a) v (dry_run a) s) as Hquiet.
    destruct (send_data_message w _ _ v _ s) as [[response|[e|c']] s1];
      cbn [fst snd] in *.
    + discriminate.
    + intros [= <-]. split; [reflexivity|].
      eexists. split; [apply last_snoc | reflexivity].
    + exfalso. apply (Hquiet c'). reflexivity.
Qed.

Lemma notification_data_reports w a : reports_exit (notification_data w a).
Proof.
  intros s c. unfold notification_data.
  destruct (truthy (data a)); [|discriminate].
  destruct (data a) as [text|]; [|discriminate].
  destruct (json_loads w text) as [msg|v].
  - cbn. intros [= <-]. split; [reflexivity|].
    eexists. split; [apply last_snoc | reflexivity].
  - destruct v; discriminate.
Qed.

Lemma handle_notification_reports w a : reports_exit (handle_notification w a).
Proof.
  intros s c. rewrite handle_notification_eq.
  pose proof (notification_data_reports w a s) as Hdata.
  destruct (notification_data w a s) as [[d|sg] s0]; cbn [fst snd] in *.
  - pose proof (quiet_send_notification w (client a) (token a) (title a) (body a) d
                  (image a) (dry_run a) s0) as Hquiet.
    destruct (send_notification w _ _ _ _ d _ _ s0) as [[response|[e|c']] s1];
      cbn [fst snd] in *.
    + discriminate.
    + intros [= <-]. split; [reflexivity|].
      eexists. split; [apply last_snoc|].
      destruct (exc_cls e); reflexivity.
    + exfalso. apply (Hquiet c'). reflexivity.
  - intros Hexit. apply (Hdata c). congruence.
Qed.

(** Outside the usage errors, [run] is one of the handlers or the help. *)
Lemma run_reports w a : usage_error a = false -> reports_exit (run w a).
Proof.
  intros Husage s c. rewrite run_mode.
  revert Husage. unfold usage_error. rewrite select_mode_cases.
  destruct (info a || access_token a); [intros _; apply handle_info_reports|].
  destruct (info_http a || access_token_http a); [intros _; apply handle_info_reports|].
  cbn [negb andb]. destruct (truthy (data_only a)).
  - intros Htoken. cbn [mode_action]. rewrite Htoken. apply handle_data_only_reports.
  - destruct (truthy (token a)); [|discriminate].
    cbn [andb mode_action]. intros Hfields. rewrite Hfields.
    apply handle_notification_reports.
Qed.

Lemma run_sent_info w a s :
  info a || access_token a || (info_http a || access_token_http a) = true ->
  sent (snd (run w a s)) = sent s.
Proof.
  intros Hmode. unfold run.
  destruct (info a || access_token a); [apply handle_info_sent|].
  cbn in Hmode. rewrite Hmode. apply handle_info_sent.
Qed.

Lemma handle_info_configuration_error w a t env :
  (forall p, fst (credentials_path w (client a) (initial_state env)) <> Ok p) ->
  fst (handle_info w a t (initial_state env)) = Raise (SystemExit 1).
Proof.
  intros Hfails. rewrite credentials_path_eq in Hfails. cbn [fst environ initial_state] in Hfails.
  unfold handle_info, try_except, show_info, project_id, credentials_info.
  unfold mbind, M_bind, print, modify, gets.
  cbn [_credentials_info initial_state fst snd].
  rewrite credentials_path_eq. unfold initial_state. cbn [environ].
  destruct (negb (truthy (creds_path (client a) env))); [reflexivity|].
  destruct (negb (path_exists w (str_opt (creds_path (client a) env)))); [reflexivity|].
  exfalso. apply (Hfails _ eq_refl).
Qed.

Lemma handle_data_only_outcome w a s m d :
  sent s = [] ->
  In (m, d) (sent (snd (handle_data_only w a s))) ->
  fst (handle_data_only w a s)
  = match messaging_send w m d with
    | inl _ => Raise (SystemExit 1)
    | inr _ => Ok tt
    end.
Proof.
  intros Hnone. rewrite handle_data_only_eq.
  destruct (data_only a) as [text|]; [|cbn; rewrite Hnone; contradiction].
  destruct (json_loads w text) as [msg|v].
  { unfold sent in *. cbn. rewrite Hnone. contradiction. }
  rewrite send_data_message_eq.
  pose proof (initialize_sent w (client a) s) as Hframe. rewrite Hnone in Hframe.
  destruct (initialize w (client a) s) as [[[]|[e|c]] s1]; unfold sent in *;
    cbn [fst snd] in Hframe.
  - destruct v; try (cbn; rewrite Hframe; contradiction).
    destruct (messaging_send w (MkMessage None (token a) (str_values w kvs)) (dry_run a))
      as [e|response] eqn:Hsend.
    + cbn. rewrite omap_app, Hframe. cbn. intros [[= <- <-]|[]]. rewrite Hsend. reflexivity.
    + destruct (dry_run a) eqn:Hdry; unfold mbind, M_bind; cbn;
        rewrite omap_app, Hframe; cbn;
        intros [[= <- <-]|[]]; rewrite Hsend; reflexivity.
  - cbn. rewrite Hframe. contradiction.
  - cbn. rewrite Hframe. contradiction.
Qed.

Lemma handle_notification_outcome w a s m d :
  sent s = [] ->
  In (m, d) (sent (snd (handle_notification w a s))) ->
  fst (handle_notification w a s)
  = match messaging_send w m d with
    | inl _ => Raise (SystemExit 1)
    | inr _ => Ok tt
    end.
Proof.
  intros Hnone. rewrite handle_notification_eq.
  assert (Hdata : sent (snd (notification_data w a s)) = []).
  { rewrite <- Hnone.
    assert (Hframe : preserves sent (notification_data w a))
      by (unfold notification_data, print; frame).
    apply Hframe. }
  destruct (notification_data w a s) as [[v|sg] s0]; cbn [fst snd] in Hdata;
    [|cbn; rewrite Hdata; contradiction].
  rewrite send_notification_eq.
  pose proof (initialize_sent w (client a) s0) as Hframe. rewrite Hdata in Hframe.
  destruct (initialize w (client a) s0) as [[[]|[e|c]] s1]; unfold sent in *;
    cbn [fst snd] in Hframe.
  - destruct (messaging_send w
                (MkMessage (Some (MkNotification (title a) (body a) (image a))) (token a) v)
                (dry_run a)) as [e|response] eqn:Hsend.
    + cbn. rewrite omap_app, Hframe. cbn. intros [[= <- <-]|[]]. rewrite Hsend. reflexivity.
    + destruct (dry_run a) eqn:Hdry; unfold mbind, M_bind; cbn;
        rewrite omap_app, Hframe; cbn;
        intros [[= <- <-]|[]]; rewrite Hsend; reflexivity.
  - cbn. rewrite Hframe. contradiction.
  - cbn. rewrite Hframe. contradiction.
Qed.

Lemma run_outcome w a env m d :
  In (m, d) (sent (snd (run w a (initial_state env)))) ->
  fst (run w a (initial_state env))
  = match messaging_send w m d with
    | inl _ => Raise (SystemExit 1)
    | inr _ => Ok tt
    end.
Proof.
  destruct (info a || access_token a || (info_http a || access_token_http a)) eqn:Hinfo.
  { rewrite (run_sent_info w a _ Hinfo). contradiction. }
  apply orb_false_elim in Hinfo as [H1 H2].
  destruct (usage_error a) eqn:Husage.
  { rewrite (run_usage_error w a _ Husage). contradiction. }
  revert Husage. unfold usage_error, run. rewrite H1, H2. cbn [negb andb].
  destruct (truthy (data_only a)).
  - intros Htoken. rewrite Htoken. apply handle_data_only_outcome. reflexivity.
  - destruct (truthy (token a)); [|contradiction].
    cbn [andb]. intros Hfields. rewrite Hfields.
    apply handle_notification_outcome. reflexivity.
Qed.

Lemma run_parse_error w a env text msg :
  info a || access_token a = false ->
  info_http a || access_token_http a = false ->
  truthy (data_only a) || truthy (token a) = true ->
  usage_error a = false ->
  text <> EmptyString ->
  json_loads w text = inl msg ->
  (if truthy (data_only a) then data_only a else data a) = Some text ->
  fst (run w a (initial_state env)) = Raise (SystemExit 1).
Proof.
  intros H1 H2 Hsend Husage Hne Hloads Hpayload.
  revert Husage. unfold usage_error, run. rewrite H1, H2. cbn [negb andb].
  destruct (truthy (data_only a)).
  - intros Htoken. rewrite Htoken.
    change (fst (handle_data_only w a (initial_state env)) = Raise (SystemExit 1)).
    rewrite handle_data_only_eq, Hpayload, Hloads. reflexivity.
  - cbn in Hsend. rewrite Hsend. cbn [andb]. intros Hfields. rewrite Hfields.
    change (fst (handle_notification w a (initial_state env)) = Raise (SystemExit 1)).
    rewrite handle_notification_eq. unfold notification_data.
    rewrite Hpayload, (truthy_intro text Hne), Hloads. reflexivity.
Qed.

(** ** A show-info run over a credential file that loads *)

Lemma credentials_path_environ w self s s' :
  environ s = environ s' ->
  fst (credentials_path w self s) = fst (credentials_path w self s').
Proof. intros Henv. rewrite !credentials_path_eq, Henv. reflexivity. Qed.

Lemma credentials_path_ok w self s p :
  fst (credentials_path w self s) = Ok p -> credentials_path w self s = (Ok p, s).
Proof.
  rewrite credentials_path_eq. cbn [fst]. intros ->. reflexivity.
Qed.

Lemma credentials_info_load w self s p text v :
  _credentials_info s = PNone ->
  fst (credentials_path w self s) = Ok p ->
  open_read w p = inr text ->
  json_loads w text = inr v ->
  credentials_info w self s = (Ok v, snd (set_credentials_info v s)).
Proof.
  intros Hnone Hpath Hopen Hloads.
  unfold credentials_info, loads, mbind, M_bind, gets. rewrite Hnone.
  rewrite (credentials_path_ok w self s p Hpath), Hopen. cbn. rewrite Hloads. reflexivity.
Qed.

Lemma try_then_print (body : M unit) (line_of : pyexc -> string) (line : string) s :
  quiet body ->
  fst ((try_except body (fun e => Some (print (line_of e)));; print line) s) = Ok tt.
Proof.
  intros Hquiet. unfold mbind, M_bind, try_except. specialize (Hquiet s).
  destruct (body s) as [[[]|[e|c]] s1]; cbn in *; try reflexivity.
  exfalso. apply (Hquiet c). reflexivity.
Qed.

Lemma bind_ok {A B} (m : M A) (k : A -> M B) s a s1 :
  m s = (Ok a, s1) -> (m ≫= k) s = k a s1.
Proof. intros Hm. unfold mbind, M_bind. rewrite Hm. reflexivity. Qed.

Lemma project_id_load w self s p text kvs :
  _credentials_info s = PNone ->
  fst (credentials_path w self s) = Ok p ->
  open_read w p = inr text ->
  json_loads w text = inr (PDict kvs) ->
  project_id w self s
  = (Ok (match kvs with [] => PStr EmptyString | _ => field "project_id" kvs end),
     snd (set_credentials_info (PDict kvs) s)).
Proof.
  intros Hnone Hpath Hopen Hloads. unfold project_id.
  rewrite (bind_ok _ _ _ _ _ (credentials_info_load w self s p text _ Hnone Hpath Hopen Hloads)).
  destruct kvs as [|kv rest]; [reflexivity|].
  cbn [py_bool negb bool_decide]. rewrite bool_decide_eq_false_2 by discriminate.
  cbn [negb].
  erewrite bind_ok; [| apply credentials_info_cached; cbn; discriminate].
  reflexivity.
Qed.

Lemma show_info_returns w self t env p text kvs :
  fst (credentials_path w self (initial_state env)) = Ok p ->
  open_read w p = inr text ->
  json_loads w text = inr (PDict kvs) ->
  fst (show_info w self t (initial_state env)) = Ok tt.
Proof.
  intros Hpath Hopen Hloads. unfold show_info.
  do 3 (erewrite bind_ok by reflexivity).
  erewrite bind_ok;
    [| eapply project_id_load;
       [ reflexivity
       | rewrite <- Hpath; apply credentials_path_environ; reflexivity
       | exact Hopen | exact Hloads ] ].
  erewrite bind_ok by reflexivity.
  erewrite bind_ok; [| apply service_account_email_loaded; reflexivity].
  erewrite bind_ok by reflexivity.
  erewrite bind_ok;
    [| apply credentials_path_ok; rewrite <- Hpath;
       apply credentials_path_environ; reflexivity ].
  do 2 (erewrite bind_ok by reflexivity).
  apply try_then_print.
  unfold get_access_token, get_access_token_http_api, print, emit. frame_try.
Qed.

Lemma run_info_returns w a env p text kvs :
  info a || access_token a || (info_http a || access_token_http a) = true ->
  fst (credentials_path w (client a) (initial_state env)) = Ok p ->
  open_read w p = inr text ->
  json_loads w text = inr (PDict kvs) ->
  fst (run w a (initial_state env)) = Ok tt.
Proof.
  intros Hmode Hpath Hopen Hloads.
  assert (Hinfo : forall t, fst (handle_info w a t (initial_state env)) = Ok tt).
  { intros t. unfold handle_info, try_except.
    pose proof (show_info_returns w (client a) t env p text kvs Hpath Hopen Hloads) as Hshow.
    destruct (show_info w (client a) t (initial_state env)) as [[[]|sg] s1];
      [reflexivity | discriminate]. }
  unfold run. destruct (info a || access_token a); [apply Hinfo|].
  cbn in Hmode. rewrite Hmode. apply Hinfo.
Qed.

Lemma main_status w a env :
  fst (main w a env)
  = match fst (run w a (initial_state env)) with
    | Ok _ => 0%Z
    | Raise (Exc _) => 1%Z
    | Raise (SystemExit code) => code
    end.
Proof.
  unfold main. destruct (run w a (initial_state env)) as [[[]|[e|c]] s]; reflexivity.
Qed.

Lemma run_exit_status w a s c :
  fst (run w a s) = Raise (SystemExit c) ->
  if usage_error a then c = 2%Z else c = 1%Z.
Proof.
  destruct (usage_error a) eqn:Husage.
  - rewrite (run_usage_error w a s Husage). intros [= <-]. reflexivity.
  - intros Hexit. apply (run_reports w a Husage s c Hexit).
Qed.

Lemma run_help w a s :
  select_mode a = Help -> run w a s = print_help w s.
Proof. intros Hmode. rewrite run_mode, Hmode. reflexivity. Qed.

(** C4, as the code has it.  The exit status is 0, 1 or 2.  It is 0
    exactly when [run] returns: after a send the service accepted, after
    the help text, after a show-info run over a credential file that holds
    a JSON object (whether or not the access token could then be
    retrieved: that failure is printed, not raised).  It is 2 exactly on
    the usage errors, which [parser.error] reports on stderr.  Every other error
    gives 1: a credential path that does not resolve in a show-info mode,
    a payload that is not JSON, a send the service refused all end in
    [sys.exit(1)], and [sys.exit(1)] is always preceded by an error line
    on stdout (one that starts with [Error: ] or, after a newline, with
    [✗ Error]); an exception nothing catches ends the process with a
    traceback on stderr. *)
Theorem exit_status (w : World) (a : Args) (env : gmap string string) :
  (fst (main w a env) = 0 \/ fst (main w a env) = 1 \/ fst (main w a env) = 2)%Z
  /\ (fst (main w a env) = 0%Z <-> fst (run w a (initial_state env)) = Ok tt)
  /\ (fst (main w a env) = 2%Z <-> usage_error a = true)
  /\ (usage_error a = true ->
      stdout (snd (main w a env)) = []
      /\ stderr (snd (main w a env))
         = [format_usage w; prog w +:+ ": error: " +:+ usage_message a +:+ nl])
  /\ (select_mode a = Help ->
      fst (main w a env) = 0%Z /\ stdout (snd (main w a env)) = [format_help w])
  /\ (forall m d,
        In (m, d) (sent (snd (main w a env))) ->
        fst (run w a (initial_state env))
        = match messaging_send w m d with
          | inl _ => Raise (SystemExit 1)
          | inr _ => Ok tt
          end)
  /\ (info a || access_token a || (info_http a || access_token_http a) = true ->
      (forall p, fst (credentials_path w (client a) (initial_state env)) <> Ok p) ->
      fst (run w a (initial_state env)) = Raise (SystemExit 1))
  /\ (forall text msg,
        info a || access_token a = false ->
        info_http a || access_token_http a = false ->
        truthy (data_only a) || truthy (token a) = true ->
        usage_error a = false ->
        text <> EmptyString ->
        json_loads w text = inl msg ->
        (if truthy (data_only a) then data_only a else data a) = Some text ->
        fst (run w a (initial_state env)) = Raise (SystemExit 1))
  /\ (fst (run w a (initial_state env)) = Raise (SystemExit 1) ->
      fst (main w a env) = 1%Z
      /\ exists line,
           last (stdout (snd (main w a env))) = Some line /\ error_line line = true)
  /\ (forall e,
        fst (run w a (initial_state env)) = Raise (Exc e) ->
        fst (main w a env) = 1%Z
        /\ stderr (snd (main w a env))
           = stderr (snd (run w a (initial_state env)))
               ++ ["Traceback (most recent call last):"; exc_msg e])
  /\ (forall p text kvs,
        info a || access_token a || (info_http a || access_token_http a) = true ->
        fst (credentials_path w (client a) (initial_state env)) = Ok p ->
        open_read w p = inr text ->
        json_loads w text = inr (PDict kvs) ->
        fst (main w a env) = 0%Z).
Proof.
  pose proof (main_status w a env) as Hstatus.
  pose proof (run_exit_status w a (initial_state env)) as Hexit.
  split.
  { rewrite Hstatus.
    destruct (fst (run w a (initial_state env))) as [[]|[e|c]]; auto.
    specialize (Hexit c eq_refl). destruct (usage_error a); subst c; auto. }
  split.
  { rewrite Hstatus.
    destruct (fst (run w a (initial_state env))) as [[]|[e|c]].
    - split; reflexivity.
    - split; discriminate.
    - split; [|discriminate]. intros ->.
      specialize (Hexit 0%Z eq_refl). destruct (usage_error a); discriminate. }
  split.
  { split.
    - rewrite Hstatus.
      destruct (fst (run w a (initial_state env))) as [[]|[e|c]]; try discriminate.
      intros ->. specialize (Hexit 2%Z eq_refl). destruct (usage_error a); [reflexivity|discriminate].
    - intros Husage. rewrite Hstatus, (run_usage_error w a _ Husage). reflexivity. }
  split.
  { intros Husage. unfold main. rewrite (run_usage_error w a _ Husage).
    split; reflexivity. }
  split.
  { intros Hmode. split.
    - rewrite Hstatus, (run_help w a _ Hmode). reflexivity.
    - rewrite main_stdout, (run_help w a _ Hmode). reflexivity. }
  split.
  { intros m d. rewrite main_sent. apply run_outcome. }
  split.
  { intros Hmode Hfails. unfold run.
    destruct (info a || access_token a);
      [apply handle_info_configuration_error, Hfails|].
    cbn in Hmode. rewrite Hmode. apply handle_info_configuration_error, Hfails. }
  split.
  { intros text msg. apply run_parse_error. }
  split.
  { intros Hone. split.
    - rewrite Hstatus, Hone. reflexivity.
    - rewrite main_stdout.
      destruct (usage_error a) eqn:Husage.
      + specialize (Hexit 1%Z Hone). discriminate.
      + apply (run_reports w a Husage (initial_state env) 1%Z Hone). }
  split.
  { intros e Hraised. split.
    - rewrite Hstatus, Hraised. reflexivity.
    - unfold main.
      destruct (run w a (initial_state env)) as [r s]. cbn in Hraised. subst r.
      unfold mbind, M_bind, eprint, modify. cbn.
      rewrite <- (app_assoc (stderr s)). reflexivity. }
  intros p text kvs Hmode Hpath Hopen Hloads.
  rewrite Hstatus, (run_info_returns w a env p text kvs Hmode Hpath Hopen Hloads).
  reflexivity.
Qed.

Lemma exit_status_witness :
  fst (run Scenario.offline
         (MkArgs None false false false false (Some "abc") None None None
            (Some Scenario.n1_text) None false)
         (initial_state Scenario.env_set))
    = Raise (SystemExit 1)
  /\
  fst (run Scenario.world
         (MkArgs None true false false false None None None None None None false)
         (initial_state Scenario.env_unset))
    = Raise (SystemExit 1)
  /\
  fst (main Scenario.offline
         (MkArgs None true false false false None None None None None None false)
         Scenario.env_set)
    = 0%Z.
Proof.
  destruct (exit_status Scenario.offline
              (MkArgs None false false false false (Some "abc") None None None
                 (Some Scenario.n1_text) None false)
              Scenario.env_set) as (_ & _ & _ & _ & _ & Hsend & _).
  destruct (exit_status Scenario.world
              (MkArgs None true false false false None None None None None None false)
              Scenario.env_unset) as (_ & _ & _ & _ & _ & _ & Hconfig & _).
  destruct (exit_status Scenario.offline
              (MkArgs None true false false false None None None None None None false)
              Scenario.env_set) as (_ & _ & _ & _ & _ & _ & _ & _ & _ & _ & Hinfo).
  split; [|split].
  - apply (Hsend (MkMessage None (Some "abc") (PDict [("n", PStr "1")])) false).
    left. reflexivity.
  - apply Hconfig; [reflexivity|]. intros p. discriminate.
  - apply (Hinfo Scenario.env_path Scenario.sa_text
             [("project_id", PStr "demo"); ("client_email", PStr "x@y.iam")]);
      reflexivity.
Defined.

(** C4 as stated fails: [--data-only] without [--token] is a usage error,
    and the process exits with status 2, not 1; and a run that ends with
    status 1 on an exception nothing catches (here [--data 5]) has printed
    no error line at all on stdout. *)
Lemma usage_error_exits_with_2 :
  usage_error (MkArgs None false false false false None None None None
                 (Some Scenario.n1_text) None false) = true
  /\ fst (main Scenario.world
            (MkArgs None false false false false None None None None
               (Some Scenario.n1_text) None false)
            Scenario.env_set) = 2%Z
  /\ fst (main Scenario.world
            (MkArgs None false false false false None None None None
               (Some Scenario.n1_text) None false)
            Scenario.env_set) <> 1%Z
  /\ main Scenario.world
        (MkArgs None false false false false (Some "abc") (Some "Hello") (Some "World")
           (Some "5") None None false)
        Scenario.env_set
     = (1%Z,
        MkState Scenario.env_set false PNone false []
          ["Traceback (most recent call last):";
           "'int' object has no attribute 'items'"] []).
Proof.
  split; [reflexivity|]. split; [reflexivity|]. split; [discriminate|]. reflexivity.
Qed.

(** * Further properties of the code *)

(** ** The cached credential payload *)

(** X1.  [credentials_info] reads the credential file once.  When the
    first call finds the path, opens the file and decodes a payload other
    than [None], it returns that payload and stores it; from then on every
    call returns the stored payload and leaves the state alone, whatever
    has happened to the file system, the decoder or the client's
    [--credentials-key-file] in the meantime. *)
Theorem credentials_info_reads_once (w : World) (self : FCMClient) (s : State)
    (p text : string) (v : pyval) :
  _credentials_info s = PNone ->
  fst (credentials_path w self s) = Ok p ->
  open_read w p = inr text ->
  json_loads w text = inr v ->
  v <> PNone ->
  credentials_info w self s = (Ok v, snd (set_credentials_info v s))
  /\ forall (w' : World) (self' : FCMClient),
       credentials_info w' self' (snd (set_credentials_info v s))
       = (Ok v, snd (set_credentials_info v s)).
Proof.
  intros Hnone Hpath Hopen Hloads Hv. split.
  - apply (credentials_info_load w self s p text v Hnone Hpath Hopen Hloads).
  - intros w' self'. apply credentials_info_cached. exact Hv.
Qed.

Lemma credentials_info_reads_once_witness :
  credentials_info Faults.empty_disk (MkFCMClient None)
    (snd (credentials_info Scenario.world (MkFCMClient (Some Scenario.sa_path))
            (initial_state Scenario.env_unset)))
  = (Ok (PDict [("project_id", PStr "demo"); ("client_email", PStr "x@y.iam")]),
     snd (credentials_info Scenario.world (MkFCMClient (Some Scenario.sa_path))
            (initial_state Scenario.env_unset))).
Proof.
  assert (Hv : PDict [("project_id", PStr "demo"); ("client_email", PStr "x@y.iam")]
               <> PNone) by discriminate.
  destruct (credentials_info_reads_once Scenario.world
              (MkFCMClient (Some Scenario.sa_path)) (initial_state Scenario.env_unset)
              Scenario.sa_path Scenario.sa_text
              (PDict [("project_id", PStr "demo"); ("client_email", PStr "x@y.iam")])
              eq_refl eq_refl eq_refl eq_refl Hv) as [Hfirst Hlater].
  rewrite Hfirst. apply Hlater.
Defined.

(** X2.  A load that fails stores nothing: whenever [credentials_info]
    raises (no path, file missing, file unreadable, text that is not
    JSON), the state is exactly what it was, so the next call tries
    again. *)
Theorem credentials_info_failure_keeps_state (w : World) (self : FCMClient)
    (s : State) (sg : signal) :
  fst (credentials_info w self s) = Raise sg ->
  snd (credentials_info w self s) = s
  /\ _credentials_info s = PNone.
Proof.
  unfold credentials_info, loads, mbind, M_bind, gets.
  destruct (_credentials_info s) eqn:Hcache; cbn; try discriminate.
  rewrite credentials_path_eq.
  destruct (negb (truthy (creds_path self (environ s)))); [auto|].
  destruct (negb (path_exists w (str_opt (creds_path self (environ s))))); [auto|].
  destruct (open_read w _) as [e|text]; [auto|]. cbn.
  destruct (json_loads w text) as [msg|v]; [auto|]. cbn. discriminate.
Qed.

Lemma credentials_info_failure_keeps_state_witness :
  snd (credentials_info Faults.garbled (MkFCMClient (Some Scenario.sa_path))
         (initial_state Scenario.env_unset))
  = initial_state Scenario.env_unset.
Proof.
  apply (credentials_info_failure_keeps_state Faults.garbled
           (MkFCMClient (Some Scenario.sa_path)) (initial_state Scenario.env_unset)
           (Exc (PyExc JSONDecodeError "Expecting value: line 1 column 1 (char 0)"))).
  reflexivity.
Defined.

(** ** Initialisation and the resolver *)

(** X3.  [initialize] never changes what [credentials_path] resolves to:
    the one variable it writes, [GOOGLE_APPLICATION_CREDENTIALS], is
    written only when [--credentials-key-file] is given, and then the
    resolver selects that option both before and after.  So the path shown
    by [show_info] is the path [get_access_token_http_api] loads the
    certificate from. *)
Theorem initialize_keeps_credentials_path (w : World) (self : FCMClient) (s : State) :
  creds_path self (environ (snd (initialize w self s))) = creds_path self (environ s)
  /\ fst (credentials_path w self (snd (initialize w self s)))
     = fst (credentials_path w self s).
Proof.
  assert (Hsel : creds_path self (environ (snd (initialize w self s)))
                 = creds_path self (environ s)).
  { unfold creds_path. destruct (truthy (_credentials_key_file self)) eqn:Hflag;
      [reflexivity|].
    f_equal.
    assert (Hframe : preserves environ (initialize w self)).
    { unfold initialize. rewrite Hflag. frame. }
    apply Hframe. }
  split; [exact Hsel|].
  rewrite !credentials_path_eq. cbn [fst]. rewrite Hsel. reflexivity.
Qed.

(** ** The coercion of payload values *)

(** X4.  The comprehension [{k: str(v) for k, v in data.items()}] keeps
    the number of items and every key in place, leaves a mapping whose
    values are all strings exactly as it is, and is idempotent. *)
Theorem str_values_on_strings (w : World) (kvs : list (string * pyval)) :
  (exists kvs',
     str_values w kvs = PDict kvs'
     /\ map fst kvs' = map fst kvs
     /\ Forall (fun kv => exists s, snd kv = PStr s) kvs'
     /\ str_values w kvs' = PDict kvs')
  /\ (Forall (fun kv => exists s, snd kv = PStr s) kvs -> str_values w kvs = PDict kvs).
Proof.
  assert (Hfix : forall l : list (string * pyval),
            Forall (fun kv => exists s, snd kv = PStr s) l ->
            map (fun kv => (fst kv, PStr (py_str w (snd kv)))) l = l).
  { intros l Hl. induction Hl as [|[k v] l [s Hs] _ IH]; [reflexivity|].
    cbn in *. subst v. rewrite IH. reflexivity. }
  assert (Hall : Forall (fun kv : string * pyval => exists s, snd kv = PStr s)
                   (map (fun kv => (fst kv, PStr (py_str w (snd kv)))) kvs)).
  { induction kvs as [|kv l IH]; constructor; [cbn; eauto | exact IH]. }
  split.
  - exists (map (fun kv => (fst kv, PStr (py_str w (snd kv)))) kvs).
    split; [reflexivity|]. split; [|split].
    + rewrite map_map. reflexivity.
    + exact Hall.
    + unfold str_values. rewrite (Hfix _ Hall). reflexivity.
  - intros Hstrings. unfold str_values. rewrite (Hfix _ Hstrings). reflexivity.
Qed.

Lemma str_values_on_strings_witness :
  str_values Scenario.world [("action", PStr "sync"); ("id", PStr "123")]
  = PDict [("action", PStr "sync"); ("id", PStr "123")].
Proof.
  apply (proj2 (str_values_on_strings Scenario.world
                  [("action", PStr "sync"); ("id", PStr "123")])).
  repeat constructor; cbn; eauto.
Defined.

(** ** What the send modes print and send *)

Lemma notification_data_ok w a s d s0 :
  notification_data w a s = (Ok d, s0) -> s0 = s.
Proof.
  unfold notification_data.
  destruct (truthy (data a)); [|intros [= _ <-]; reflexivity].
  destruct (data a) as [text|]; [|intros [= _ <-]; reflexivity].
  destruct (json_loads w text) as [msg|v]; [discriminate|].
  destruct v; try discriminate. intros [= _ <-]. reflexivity.
Qed.

Lemma handle_data_only_report w a s m d :
  sent s = [] -> stdout s = [] -> truthy (data_only a) = true ->
  In (m, d) (sent (snd (handle_data_only w a s))) ->
  stdout (snd (handle_data_only w a s))
  = match messaging_send w m d with
    | inl e => [send_error_line a e]
    | inr response => success_lines a response
    end.
Proof.
  intros Hnone Hquiet Hmode. unfold send_error_line, success_lines. rewrite Hmode.
  rewrite handle_data_only_eq.
  destruct (data_only a) as [text|]; [|cbn; rewrite Hnone; contradiction].
  destruct (json_loads w text) as [msg|v].
  { unfold sent in *. cbn. rewrite Hnone. contradiction. }
  rewrite send_data_message_eq.
  pose proof (initialize_sent w (client a) s) as Hframe. rewrite Hnone in Hframe.
  pose proof (initialize_stdout w (client a) s) as Hout. rewrite Hquiet in Hout.
  destruct (initialize w (client a) s) as [[[]|[e|c]] s1]; unfold sent in *;
    cbn [fst snd] in Hframe, Hout.
  - destruct v; try (cbn; rewrite Hframe; contradiction).
    destruct (messaging_send w (MkMessage None (token a) (str_values w kvs)) (dry_run a))
      as [e|response] eqn:Hsend.
    + cbn. rewrite omap_app, Hframe, Hout. cbn. intros [[= <- <-]|[]].
      rewrite Hsend. reflexivity.
    + destruct (dry_run a) eqn:Hdry; unfold mbind, M_bind; cbn;
        rewrite omap_app, Hframe, Hout; cbn;
        intros [[= <- <-]|[]]; rewrite Hsend; reflexivity.
  - cbn. rewrite Hframe. contradiction.
  - cbn. rewrite Hframe. contradiction.
Qed.

Lemma handle_notification_report w a s m d :
  sent s = [] -> stdout s = [] -> truthy (data_only a) = false ->
  In (m, d) (sent (snd (handle_notification w a s))) ->
  stdout (snd (handle_notification w a s))
  = match messaging_send w m d with
    | inl e => [send_error_line a e]
    | inr response => success_lines a response
    end.
Proof.
  intros Hnone Hquiet Hmode. unfold send_error_line, success_lines. rewrite Hmode.
  rewrite handle_notification_eq.
  destruct (notification_data w a s) as [[v|sg] s0] eqn:Hdata.
  2:{ assert (Hframe : preserves sent (notification_data w a))
        by (unfold notification_data, print; frame).
      specialize (Hframe s). rewrite Hdata in Hframe. cbn in *.
      rewrite Hframe, Hnone. contradiction. }
  apply notification_data_ok in Hdata. subst s0.
  rewrite send_notification_eq.
  pose proof (initialize_sent w (client a) s) as Hframe. rewrite Hnone in Hframe.
  pose proof (initialize_stdout w (client a) s) as Hout. rewrite Hquiet in Hout.
  destruct (initialize w (client a) s) as [[[]|[e|c]] s1]; unfold sent in *;
    cbn [fst snd] in Hframe, Hout.
  - destruct (messaging_send w
                (MkMessage (Some (MkNotification (title a) (body a) (image a))) (token a) v)
                (dry_run a)) as [e|response] eqn:Hsend.
    + cbn. rewrite omap_app, Hframe, Hout. cbn. intros [[= <- <-]|[]].
      rewrite Hsend. destruct (exc_cls e); reflexivity.
    + destruct (dry_run a) eqn:Hdry; unfold mbind, M_bind; cbn;
        rewrite omap_app, Hframe, Hout; cbn;
        intros [[= <- <-]|[]]; rewrite Hsend; reflexivity.
  - cbn. rewrite Hframe. contradiction.
  - cbn. rewrite Hframe. contradiction.
Qed.

(** X5.  Once a message has been handed to [messaging.send], what the
    process prints on stdout is decided by the answer alone.  When the
    service returns an identifier: two lines, the success line of the mode
    (in its dry-run wording under [--dry-run]) and the identifier.  When it
    raises: one line; in data-only mode always the generic one with the
    exception's text, in notification mode the fixed sentence for
    [UnregisteredError] or [SenderIdMismatchError] and the generic one for
    anything else. *)
Theorem send_report (w : World) (a : Args) (env : gmap string string)
    (m : Message) (d : bool) :
  In (m, d) (sent (snd (main w a env))) ->
  stdout (snd (main w a env))
  = match messaging_send w m d with
    | inl e => [send_error_line a e]
    | inr response => success_lines a response
    end.
Proof.
  rewrite main_sent, main_stdout.
  destruct (info a || access_token a || (info_http a || access_token_http a)) eqn:Hinfo.
  { rewrite (run_sent_info w a _ Hinfo). contradiction. }
  apply orb_false_elim in Hinfo as [H1 H2].
  destruct (usage_error a) eqn:Husage.
  { rewrite (run_usage_error w a _ Husage). contradiction. }
  revert Husage. unfold usage_error, run. rewrite H1, H2. cbn [negb andb].
  destruct (truthy (data_only a)) eqn:Hmode.
  - intros Htoken. rewrite Htoken.
    apply (handle_data_only_report w a (initial_state env) m d); auto.
  - destruct (truthy (token a)); [|contradiction].
    cbn [andb]. intros Hfields. rewrite Hfields.
    apply (handle_notification_report w a (initial_state env) m d); auto.
Qed.

Lemma send_report_witness :
  stdout (snd (main Faults.unregistered
                 (MkArgs None false false false false (Some "abc") (Some "Hello")
                    (Some "World") None None None false)
                 Scenario.env_set))
  = [nl +:+ "✗ Error: The FCM token is not registered (device may have uninstalled the app)"]
  /\
  stdout (snd (main Scenario.world
                 (MkArgs None false false false false (Some "abc") None None None
                    (Some Scenario.n1_text) None true)
                 Scenario.env_set))
  = [nl +:+ "✓ Dry run successful! Data message is valid.";
     "  Message ID (dry run): projects/demo/messages/0:1"].
Proof.
  split.
  - apply (send_report Faults.unregistered
             (MkArgs None false false false false (Some "abc") (Some "Hello")
                (Some "World") None None None false)
             Scenario.env_set
             (MkMessage (Some (MkNotification (Some "Hello") (Some "World") None))
                (Some "abc") PNone) false).
    left. reflexivity.
  - apply (send_report Scenario.world
             (MkArgs None false false false false (Some "abc") None None None
                (Some Scenario.n1_text) None true)
             Scenario.env_set
             (MkMessage None (Some "abc") (PDict [("n", PStr "1")])) true).
    left. reflexivity.
Defined.

(** X6.  In notification mode, when [--data] is absent or empty no text is
    decoded at all: whatever the decoder would answer, the message handed
    to [messaging.send] carries [None] as its data, next to the title, the
    body, the image and the token of the command line. *)
Theorem notification_without_data (w : World) (a : Args) (env : gmap string string) :
  info a || access_token a = false ->
  info_http a || access_token_http a = false ->
  truthy (data_only a) = false ->
  truthy (token a) = true -> truthy (title a) = true -> truthy (body a) = true ->
  truthy (data a) = false ->
  sent (snd (main w a env))
  = match fst (initialize w (client a) (initial_state env)) with
    | Ok _ => [(MkMessage (Some (MkNotification (title a) (body a) (image a)))
                  (token a) PNone,
                dry_run a)]
    | Raise _ => []
    end.
Proof.
  intros Hinfo Hhttp Hmode Htoken Htitle Hbody Hdata.
  rewrite main_sent, (run_notification w a Hinfo Hhttp Hmode Htoken Htitle Hbody).
  pose proof (send_notification_sent w (client a) (token a) (title a) (body a) PNone
                (image a) (dry_run a) (initial_state env)) as Hsent.
  rewrite handle_notification_eq. unfold notification_data. rewrite Hdata.
  cbn [mret M_ret].
  destruct (send_notification w _ _ _ _ _ _ _ (initial_state env))
    as [[response|[e|c]] s1]; cbn [fst snd] in *; try exact Hsent.
  destruct (dry_run a); exact Hsent.
Qed.

Lemma notification_without_data_witness :
  sent (snd (main Scenario.world
               (MkArgs None false false false false (Some "abc") (Some "Hello")
                  (Some "World") (Some EmptyString) None
                  (Some "https://example.org/i.png") false)
               Scenario.env_set))
  = [(MkMessage
        (Some (MkNotification (Some "Hello") (Some "World")
                 (Some "https://example.org/i.png")))
        (Some "abc") PNone, false)].
Proof.
  apply (notification_without_data Scenario.world
           (MkArgs None false false false false (Some "abc") (Some "Hello")
              (Some "World") (Some EmptyString) None
              (Some "https://example.org/i.png") false)
           Scenario.env_set);
    reflexivity.
Defined.

(** X7.  A payload that is not JSON is refused before anything else
    happens: the process prints the one line [Error: Invalid JSON in
    --data-only: ...] (or [--data: ...]) with the decoder's message, exits
    with status 1, and has made no SDK call and changed nothing else, the
    environment included. *)
Theorem invalid_json_is_refused_first (w : World) (a : Args) (env : gmap string string)
    (text msg : string) :
  info a || access_token a = false ->
  info_http a || access_token_http a = false ->
  truthy (data_only a) || truthy (token a) = true ->
  usage_error a = false ->
  text <> EmptyString ->
  json_loads w text = inl msg ->
  (if truthy (data_only a) then data_only a else data a) = Some text ->
  main w a env
  = (1%Z,
     MkState env false PNone false
       [(if truthy (data_only a)
         then "Error: Invalid JSON in --data-only: "
         else "Error: Invalid JSON in --data: ") +:+ msg]
       [] []).
Proof.
  intros H1 H2 Hsend Husage Hne Hloads Hpayload.
  unfold main. revert Husage. unfold usage_error, run. rewrite H1, H2. cbn [negb andb].
  destruct (truthy (data_only a)).
  - intros Htoken. rewrite Htoken.
    change ((mret tt;; handle_data_only w a) (initial_state env))
      with (handle_data_only w a (initial_state env)).
    rewrite handle_data_only_eq, Hpayload, Hloads. reflexivity.
  - cbn in Hsend. rewrite Hsend. cbn [andb]. intros Hfields. rewrite Hfields.
    change ((mret tt;; handle_notification w a) (initial_state env))
      with (handle_notification w a (initial_state env)).
    rewrite handle_notification_eq. unfold notification_data.
    rewrite Hpayload, (truthy_intro text Hne), Hloads. reflexivity.
Qed.

Lemma invalid_json_is_refused_first_witness :
  main Scenario.world
    (MkArgs None false false false false (Some "abc") (Some "Hello") (Some "World")
       (Some "oops") None None false)
    Scenario.env_set
  = (1%Z,
     MkState Scenario.env_set false PNone false
       ["Error: Invalid JSON in --data: Expecting value: line 1 column 1 (char 0)"]
       [] []).
Proof.
  assert (Hne : "oops" <> EmptyString) by discriminate.
  apply (invalid_json_is_refused_first Scenario.world
           (MkArgs None false false false false (Some "abc") (Some "Hello")
              (Some "World") (Some "oops") None None false)
           Scenario.env_set "oops" "Expecting value: line 1 column 1 (char 0)"
           eq_refl eq_refl eq_refl eq_refl Hne eq_refl eq_refl).
Defined.

(** ** The SDK calls of a run *)

Lemma main_trace w a env :
  trace (snd (main w a env)) = trace (snd (run w a (initial_state env))).
Proof.
  unfold main. destruct (run w a (initial_state env)) as [[[]|[e|c]] s]; reflexivity.
Qed.

Lemma initialize_untouched w self s :
  untouched s ->
  trace (snd (initialize w self s)) = [EvInitializeApp (adc_at_init self s)]
  /\ (fst (initialize w self s) = Ok tt -> fb_apps (snd (initialize w self s)) = true).
Proof.
  intros (Htrace & Hini & Happs).
  unfold initialize, firebase_initialize_app, adc_at_init. unfold_m.
  rewrite Hini, Happs. cbn.
  destruct (truthy (_credentials_key_file self)) eqn:Hflag; cbn; rewrite ?Happs, Htrace.
  - destruct (truthy_Some _ Hflag) as (p & Hp & _). rewrite Hp. cbn.
    destruct (initialize_app w _); cbn; rewrite ?lookup_insert_eq; split; done.
  - destruct (initialize_app w _); cbn; split; done.
Qed.

Lemma get_access_token_trace w self s :
  untouched s ->
  session_trace (adc_at_init self s) (trace (snd (get_access_token w self s))).
Proof.
  intros Hs. destruct (initialize_untouched w self s Hs) as [Htrace Happs].
  pose proof (quiet_initialize w self s) as Hquiet.
  unfold get_access_token, firebase_get_app, mbind, M_bind.
  destruct (initialize w self s) as [[[]|sg] s1]; cbn [fst snd] in *.
  - unfold gets at 1. rewrite (Happs eq_refl). cbn.
    destruct (admin_access_token w (environ s1)); cbn; rewrite Htrace;
      right; right; eexists; split; reflexivity.
  - rewrite Htrace. right. left. reflexivity.
Qed.

Lemma get_access_token_http_api_trace w self s :
  untouched s ->
  session_trace (adc_at_init self s) (trace (snd (get_access_token_http_api w self s))).
Proof.
  intros Hs. destruct (initialize_untouched w self s Hs) as [Htrace _].
  unfold get_access_token_http_api, mbind, M_bind.
  destruct (initialize w self s) as [[[]|sg] s1]; cbn [fst snd] in *.
  - rewrite credentials_path_eq.
    destruct (negb (truthy (creds_path self (environ s1)))).
    { cbn. rewrite Htrace. right. left. reflexivity. }
    destruct (negb (path_exists w (str_opt (creds_path self (environ s1))))).
    { cbn. rewrite Htrace. right. left. reflexivity. }
    cbn. destruct (certificate_access_token w _); cbn; rewrite Htrace;
      right; right; eexists; split; reflexivity.
  - rewrite Htrace. right. left. reflexivity.
Qed.

Lemma bind_tail_trace {A B} (m : M A) (k : A -> M B) s :
  (forall a, preserves trace (k a)) ->
  trace (snd ((m ≫= k) s)) = trace (snd (m s)).
Proof.
  intros Hk. unfold mbind, M_bind.
  destruct (m s) as [[a|sg] s1]; [apply Hk | reflexivity].
Qed.

Lemma try_except_trace {A} (body : M A) clauses s :
  (forall e handler, clauses e = Some handler -> preserves trace handler) ->
  trace (snd (try_except body clauses s)) = trace (snd (body s)).
Proof.
  intros Hclauses. unfold try_except.
  destruct (body s) as [[a|[e|c]] s1]; try reflexivity.
  destruct (clauses e) as [handler|] eqn:Hc; [|reflexivity].
  apply (Hclauses e handler Hc).
Qed.

Lemma token_report_trace w self t s :
  trace (snd (token_report w self t s)) = trace (snd (get_token w self t s)).
Proof.
  unfold token_report.
  rewrite bind_tail_trace by (intros; unfold print; frame).
  rewrite try_except_trace
    by (intros e handler [= <-]; unfold print; frame).
  rewrite bind_tail_trace by (intros; unfold print; frame).
  destruct t; [reflexivity|]. cbn [get_token].
  apply bind_tail_trace. intros tok. unfold print. frame.
Qed.

Lemma show_info_split w self t :
  show_info w self t =
  (print (nl +:+ rule);;
   print "Firebase Service Account Information";;
   print rule;;
   pid ← project_id w self;
   print ("  PROJECT_ID:            " +:+ py_str w pid);;
   email ← service_account_email w self;
   print ("  SERVICE_ACCOUNT_EMAIL: " +:+ py_str w email);;
   path ← credentials_path w self;
   print ("  CREDENTIALS_FILE:      " +:+ path);;
   print rule;;
   token_report w self t).
Proof. reflexivity. Qed.

Section Reach.

Context (I Q : State -> Prop).
Hypothesis I_Q : forall s, I s -> Q s.

Lemma reach_bind {A B} (m : M A) (k : A -> M B) :
  (forall s, I s -> I (snd (m s))) ->
  (forall a s, I s -> Q (snd (k a s))) ->
  forall s, I s -> Q (snd ((m ≫= k) s)).
Proof.
  intros Hm Hk s Hs. unfold mbind, M_bind. specialize (Hm s Hs).
  destruct (m s) as [[a|sg] s1]; cbn in *; [apply Hk, Hm | apply I_Q, Hm].
Qed.

End Reach.

(** Nothing before the [try] block of [show_info] calls the SDK or writes
    the environment. *)
Lemma untouched_step {A} (env : gmap string string) (m : M A) :
  preserves trace m -> preserves _initialized m -> preserves fb_apps m ->
  preserves environ m ->
  forall s, untouched s /\ environ s = env -> untouched (snd (m s)) /\ environ (snd (m s)) = env.
Proof.
  intros Ht Hi Ha He s [(H1 & H2 & H3) H4]. unfold untouched.
  rewrite (Ht s), (Hi s), (Ha s), (He s). auto.
Qed.

Lemma show_info_trace w self t env s :
  untouched s /\ environ s = env ->
  session_trace (if truthy (_credentials_key_file self)
                 then Some (str_opt (_credentials_key_file self))
                 else env !! GOOGLE_APPLICATION_CREDENTIALS)
    (trace (snd (show_info w self t s))).
Proof.
  revert s. rewrite show_info_split.
  set (adc := if truthy (_credentials_key_file self)
              then Some (str_opt (_credentials_key_file self))
              else env !! GOOGLE_APPLICATION_CREDENTIALS).
  set (I := fun s : State => untouched s /\ environ s = env).
  set (Q := fun s : State => session_trace adc (trace s)).
  assert (HIQ : forall s, I s -> Q s).
  { intros s [[Htrace _] _]. left. exact Htrace. }
  assert (Hstep : forall (A : Type) (m : M A),
             preserves trace m -> preserves _initialized m ->
             preserves fb_apps m -> preserves environ m ->
             forall s, I s -> I (snd (m s))).
  { intros A m Ht Hi Ha He. apply untouched_step; assumption. }
  assert (Hprint : forall line s, I s -> I (snd (print line s))).
  { intros line. apply Hstep; unfold print; frame. }
  assert (Htail : forall s, I s -> Q (snd (token_report w self t s))).
  { intros s [Hs Henv]. unfold Q. rewrite token_report_trace.
    replace adc with (adc_at_init self s)
      by (unfold adc, adc_at_init; rewrite Henv; reflexivity).
    destruct t; [apply get_access_token_trace | apply get_access_token_http_api_trace];
      exact Hs. }
  do 3 (apply (reach_bind I Q HIQ); [apply Hprint | intros ?]).
  apply (reach_bind I Q HIQ); [apply Hstep; unfold project_id; frame | intros ?].
  apply (reach_bind I Q HIQ); [apply Hprint | intros ?].
  apply (reach_bind I Q HIQ); [apply Hstep; unfold service_account_email; frame | intros ?].
  apply (reach_bind I Q HIQ); [apply Hprint | intros ?].
  apply (reach_bind I Q HIQ); [apply Hstep; frame | intros ?].
  do 2 (apply (reach_bind I Q HIQ); [apply Hprint | intros ?]).
  exact Htail.
Qed.

Lemma handle_info_trace w a t s :
  trace (snd (handle_info w a t s)) = trace (snd (show_info w (client a) t s)).
Proof.
  unfold handle_info. apply try_except_trace.
  intros e handler Hclause. clause_inv Hclause. unfold print. frame.
Qed.

Lemma send_notification_trace w self tok t b d img dry s :
  untouched s ->
  session_trace (adc_at_init self s)
    (trace (snd (send_notification w self tok t b d img dry s))).
Proof.
  intros Hs. destruct (initialize_untouched w self s Hs) as [Htrace _].
  rewrite send_notification_eq.
  destruct (initialize w self s) as [[[]|sg] s1]; cbn [fst snd] in *.
  - cbn. rewrite Htrace. right. right. eexists. split; reflexivity.
  - rewrite Htrace. right. left. reflexivity.
Qed.

Lemma send_data_message_trace w self tok d dry s :
  untouched s ->
  session_trace (adc_at_init self s)
    (trace (snd (send_data_message w self tok d dry s))).
Proof.
  intros Hs. destruct (initialize_untouched w self s Hs) as [Htrace _].
  rewrite send_data_message_eq.
  destruct (initialize w self s) as [[[]|sg] s1]; cbn [fst snd] in *.
  - destruct d; try (cbn; rewrite Htrace; right; left; reflexivity).
    cbn. rewrite Htrace. right. right. eexists. split; reflexivity.
  - rewrite Htrace. right. left. reflexivity.
Qed.

(** X8.  One run makes at most one remote call.  The SDK calls recorded for
    any invocation are: none at all; or a single
    [firebase_admin.initialize_app], which finds in
    [GOOGLE_APPLICATION_CREDENTIALS] the [--credentials-key-file] value if
    one was given and the inherited value otherwise; or that
    initialisation followed by exactly one token request or one send. *)
Theorem one_remote_call_per_run (w : World) (a : Args) (env : gmap string string) :
  session_trace (adc_at_init (client a) (initial_state env))
    (trace (snd (main w a env))).
Proof.
  rewrite main_trace.
  assert (Hs0 : untouched (initial_state env)) by (repeat split).
  destruct (info a || access_token a || (info_http a || access_token_http a)) eqn:Hinfo.
  { assert (Hmode : exists t, run w a = handle_info w a t).
    { unfold run. destruct (info a || access_token a); [eauto|].
      cbn in Hinfo. rewrite Hinfo. eauto. }
    destruct Hmode as [t ->]. rewrite handle_info_trace.
    apply (show_info_trace w (client a) t env). split; [exact Hs0 | reflexivity]. }
  apply orb_false_elim in Hinfo as [H1 H2].
  destruct (usage_error a) eqn:Husage.
  { rewrite (run_usage_error w a _ Husage). left. reflexivity. }
  revert Husage. unfold usage_error, run. rewrite H1, H2. cbn [negb andb].
  destruct (truthy (data_only a)).
  - intros Htoken. rewrite Htoken.
    change ((mret tt;; handle_data_only w a) (initial_state env))
      with (handle_data_only w a (initial_state env)).
    rewrite handle_data_only_eq.
    destruct (data_only a) as [text|]; [|left; reflexivity].
    destruct (json_loads w text) as [msg|v]; [left; reflexivity|].
    pose proof (send_data_message_trace w (client a) (token a) v (dry_run a)
                  (initial_state env) Hs0) as Hsend.
    destruct (send_data_message w _ _ v _ _) as [[response|[e|c]] s1];
      cbn [fst snd] in *; try exact Hsend.
    destruct (dry_run a); exact Hsend.
  - destruct (truthy (token a)) eqn:Htoken; [|intros _; left; reflexivity].
    cbn [andb]. intros Hfields. rewrite Hfields.
    change ((mret tt;; handle_notification w a) (initial_state env))
      with (handle_notification w a (initial_state env)).
    rewrite handle_notification_eq.
    destruct (notification_data w a (initial_state env)) as [[d|sg] s0] eqn:Hdata.
    + apply notification_data_ok in Hdata. subst s0.
      pose proof (send_notification_trace w (client a) (token a) (title a) (body a) d
                    (image a) (dry_run a) (initial_state env) Hs0) as Hsend.
      destruct (send_notification w _ _ _ _ d _ _ _) as [[response|[e|c]] s1];
        cbn [fst snd] in *; try exact Hsend.
      destruct (dry_run a); exact Hsend.
    + assert (Hframe : preserves trace (notification_data w a))
        by (unfold notification_data, print; frame).
      specialize (Hframe (initial_state env)). rewrite Hdata in Hframe.
      cbn [fst snd] in *. rewrite Hframe. left. reflexivity.
Qed.

(** ** What a show-info run prints *)

Lemma show_info_loaded w self t env p text kvs :
  fst (credentials_path w self (initial_state env)) = Ok p ->
  open_read w p = inr text ->
  json_loads w text = inr (PDict kvs) ->
  show_info w self t (initial_state env)
  = token_report w self t (loaded_state w env kvs p).
Proof.
  intros Hpath Hopen Hloads. rewrite show_info_split.
  do 3 (erewrite bind_ok by reflexivity).
  erewrite bind_ok;
    [| eapply project_id_load;
       [ reflexivity
       | rewrite <- Hpath; apply credentials_path_environ; reflexivity
       | exact Hopen | exact Hloads ] ].
  erewrite bind_ok by reflexivity.
  erewrite bind_ok; [| apply service_account_email_loaded; reflexivity].
  erewrite bind_ok by reflexivity.
  erewrite bind_ok;
    [| apply credentials_path_ok; rewrite <- Hpath;
       apply credentials_path_environ; reflexivity ].
  do 2 (erewrite bind_ok by reflexivity).
  reflexivity.
Qed.

Lemma get_token_stdout w self t : preserves stdout (get_token w self t).
Proof.
  destruct t; unfold get_token, get_access_token, get_access_token_http_api, emit; frame.
Qed.

Lemma quiet_get_token w self t : quiet (get_token w self t).
Proof.
  destruct t; unfold get_token, get_access_token, get_access_token_http_api, emit; frame.
Qed.

(** The [try] block of [show_info], by the outcome of the token request. *)
Lemma token_report_eq w self t s :
  token_report w self t s
  = (Ok tt,
     snd (print (rule +:+ nl)
            (match get_token w self t s with
             | (Ok tok, s1) =>
                 MkState (environ s1) (fb_apps s1) (_credentials_info s1)
                   (_initialized s1) (stdout s1 ++ token_lines t tok)
                   (stderr s1) (trace s1)
             | (Raise (Exc e), s1) =>
                 snd (print (nl +:+ "  Error retrieving access token: " +:+ exc_msg e) s1)
             | (Raise (SystemExit _), s1) => s1
             end))).
Proof.
  pose proof (quiet_get_token w self t s) as Hquiet.
  unfold token_report, try_except, mbind, M_bind.
  destruct t; cbn [get_token] in *.
  - destruct (get_access_token w self s) as [[tok|[e|c]] s1]; try reflexivity.
    exfalso. apply (Hquiet c). reflexivity.
  - destruct (get_access_token_http_api w self s) as [[tok|[e|c]] s1].
    + cbn. rewrite <- app_assoc. reflexivity.
    + reflexivity.
    + exfalso. apply (Hquiet c). reflexivity.
Qed.

Lemma run_info w a :
  info a || access_token a || (info_http a || access_token_http a) = true ->
  run w a = handle_info w a (token_type a).
Proof.
  intros Hmode. unfold run, token_type.
  destruct (info a || access_token a); [reflexivity|].
  cbn in Hmode. rewrite Hmode. reflexivity.
Qed.

(** X9.  A show-info run over a credential file that holds a JSON object
    always ends with status 0 and prints, in this order: the three banner
    lines; the project id, the service-account e-mail (each the field's
    value, [N/A] when the non-empty object lacks the field, empty for
    [{}]), the resolved path and a rule; then either the token lines, with
    the token the SDK returned (for the HTTP variant preceded by its first
    50 characters), or the single line [Error retrieving access token:
    ...] when initialisation or the token request raised; and the closing
    rule.  Nothing goes to stderr. *)
Theorem show_info_display (w : World) (a : Args) (env : gmap string string)
    (p text : string) (kvs : list (string * pyval)) :
  info a || access_token a || (info_http a || access_token_http a) = true ->
  fst (credentials_path w (client a) (initial_state env)) = Ok p ->
  open_read w p = inr text ->
  json_loads w text = inr (PDict kvs) ->
  fst (main w a env) = 0%Z
  /\ stderr (snd (main w a env)) = []
  /\ stdout (snd (main w a env))
     = banner ++ account_lines w kvs p
       ++ match fst (get_token w (client a) (token_type a) (loaded_state w env kvs p)) with
          | Ok tok => token_lines (token_type a) tok
          | Raise (Exc e) => [nl +:+ "  Error retrieving access token: " +:+ exc_msg e]
          | Raise (SystemExit _) => []
          end
       ++ [rule +:+ nl].
Proof.
  intros Hmode Hpath Hopen Hloads.
  assert (Hrun : run w a (initial_state env)
                 = token_report w (client a) (token_type a) (loaded_state w env kvs p)).
  { rewrite (run_info w a Hmode). unfold handle_info, try_except.
    rewrite (show_info_loaded w (client a) (token_type a) env p text kvs Hpath Hopen Hloads).
    rewrite token_report_eq. reflexivity. }
  unfold main. rewrite Hrun, token_report_eq.
  pose proof (get_token_stdout w (client a) (token_type a) (loaded_state w env kvs p))
    as Hout.
  assert (Herr : preserves stderr (get_token w (client a) (token_type a))).
  { destruct (token_type a);
      unfold get_token, get_access_token, get_access_token_http_api, emit; frame. }
  specialize (Herr (loaded_state w env kvs p)).
  destruct (get_token w (client a) (token_type a) (loaded_state w env kvs p))
    as [[tok|[e|c]] s1]; cbn [fst snd] in *; cbn; rewrite Hout, Herr;
    repeat split; cbn; rewrite <- ?app_assoc; reflexivity.
Qed.

Lemma show_info_display_witness :
  stdout (snd (main Scenario.offline
                 (MkArgs None false false true false None None None None None None false)
                 Scenario.env_set))
  = [nl +:+ rule; "Firebase Service Account Information"; rule;
     "  PROJECT_ID:            demo";
     "  SERVICE_ACCOUNT_EMAIL: x@y.iam";
     "  CREDENTIALS_FILE:      /home/ci/adc.json";
     rule;
     nl +:+ "  Error retrieving access token: Connection refused";
     rule +:+ nl].
Proof.
  apply (proj2 (proj2 (show_info_display Scenario.offline
           (MkArgs None false false true false None None None None None None false)
           Scenario.env_set Scenario.env_path Scenario.sa_text
           [("project_id", PStr "demo"); ("client_email", PStr "x@y.iam")]
           eq_refl eq_refl eq_refl eq_refl))).
Defined.

Lemma bind_raise {A B} (m : M A) (k : A -> M B) s sg s1 :
  m s = (Raise sg, s1) -> (m ≫= k) s = (Raise sg, s1).
Proof. intros Hm. unfold mbind, M_bind. rewrite Hm. reflexivity. Qed.

Lemma credentials_info_path_fails w self s sg :
  _credentials_info s = PNone ->
  fst (credentials_path w self s) = Raise sg ->
  credentials_info w self s = (Raise sg, s).
Proof.
  intros Hnone Hpath. unfold credentials_info.
  erewrite bind_ok by reflexivity. rewrite Hnone.
  apply bind_raise, bind_raise.
  rewrite credentials_path_eq in Hpath |- *. cbn [fst] in Hpath. rewrite Hpath. reflexivity.
Qed.

Lemma credentials_info_open_fails w self s p e :
  _credentials_info s = PNone ->
  fst (credentials_path w self s) = Ok p ->
  open_read w p = inl e ->
  credentials_info w self s = (Raise (Exc e), s).
Proof.
  intros Hnone Hpath Hopen. unfold credentials_info.
  erewrite bind_ok by reflexivity. rewrite Hnone.
  apply bind_raise.
  erewrite bind_ok by (apply credentials_path_ok, Hpath).
  apply bind_raise. rewrite Hopen. reflexivity.
Qed.

Lemma credentials_info_decode_fails w self s p text msg :
  _credentials_info s = PNone ->
  fst (credentials_path w self s) = Ok p ->
  open_read w p = inr text ->
  json_loads w text = inl msg ->
  credentials_info w self s = (Raise (Exc (PyExc JSONDecodeError msg)), s).
Proof.
  intros Hnone Hpath Hopen Hloads. unfold credentials_info.
  erewrite bind_ok by reflexivity. rewrite Hnone.
  apply bind_raise.
  erewrite bind_ok by (apply credentials_path_ok, Hpath).
  erewrite bind_ok by (rewrite Hopen; reflexivity).
  apply bind_raise. unfold loads. rewrite Hloads. reflexivity.
Qed.

(** [show_info] when the first access to the payload raises: the banner
    is out, nothing else has happened. *)
Lemma show_info_load_raises w self t env sg :
  credentials_info w self
    (MkState env false PNone false banner [] [])
  = (Raise sg, MkState env false PNone false banner [] []) ->
  show_info w self t (initial_state env)
  = (Raise sg, MkState env false PNone false banner [] []).
Proof.
  intros Hload. rewrite show_info_split.
  do 3 (erewrite bind_ok by reflexivity).
  apply bind_raise. unfold project_id. apply bind_raise. exact Hload.
Qed.

(** X10.  In a show-info mode, when the credential path does not resolve
    (no source, or the file is missing) or the file cannot be opened (any
    [OSError]), the process prints the banner and one line [Error: ...]
    with the exception's text, exits with status 1, and has made no SDK
    call and loaded nothing. *)
Theorem show_info_without_credentials (w : World) (a : Args) (env : gmap string string)
    (e : pyexc) :
  info a || access_token a || (info_http a || access_token_http a) = true ->
  fst (credentials_path w (client a) (initial_state env)) = Raise (Exc e)
  \/ (exists p,
        fst (credentials_path w (client a) (initial_state env)) = Ok p
        /\ open_read w p = inl e /\ is_OSError (exc_cls e) = true) ->
  main w a env
  = (1%Z, MkState env false PNone false (banner ++ ["Error: " +:+ exc_msg e]) [] []).
Proof.
  intros Hmode Hfail.
  assert (Hload : credentials_info w (client a) (MkState env false PNone false banner [] [])
                  = (Raise (Exc e), MkState env false PNone false banner [] [])
                  /\ is_OSError (exc_cls e) = true).
  { destruct Hfail as [Hpath | (p & Hpath & Hopen & Hos)].
    - split.
      + apply credentials_info_path_fails; [reflexivity|].
        rewrite <- Hpath. apply credentials_path_environ. reflexivity.
      + revert Hpath. rewrite credentials_path_eq. cbn [fst].
        destruct (negb (truthy _)); [intros [= <-]; reflexivity|].
        destruct (negb (path_exists _ _)); [intros [= <-]; reflexivity | discriminate].
    - split; [|exact Hos].
      apply (credentials_info_open_fails w (client a) _ p); [reflexivity | | exact Hopen].
      rewrite <- Hpath. apply credentials_path_environ. reflexivity. }
  destruct Hload as [Hload Hos].
  unfold main. rewrite (run_info w a Hmode). unfold handle_info, try_except.
  rewrite (show_info_load_raises w (client a) (token_type a) env _ Hload).
  rewrite Hos. reflexivity.
Qed.

Lemma show_info_without_credentials_witness :
  main Scenario.world
    (MkArgs None true false false false None None None None None None false)
    Scenario.env_unset
  = (1%Z, MkState Scenario.env_unset false PNone false
            (banner ++ ["Error: " +:+ no_credentials]) [] [])
  /\
  main Faults.unreadable
    (MkArgs (Some Scenario.sa_path) false true false false None None None None None
       None false)
    Scenario.env_unset
  = (1%Z, MkState Scenario.env_unset false PNone false
            (banner ++ ["Error: [Errno 13] Permission denied: '/etc/fcm/service-account.json'"])
            [] []).
Proof.
  split.
  - apply (show_info_without_credentials Scenario.world
             (MkArgs None true false false false None None None None None None false)
             Scenario.env_unset (PyExc EnvironmentError no_credentials) eq_refl).
    left. reflexivity.
  - apply (show_info_without_credentials Faults.unreadable
             (MkArgs (Some Scenario.sa_path) false true false false None None None None
                None None false)
             Scenario.env_unset
             (PyExc OSError
                "[Errno 13] Permission denied: '/etc/fcm/service-account.json'")
             eq_refl).
    right. exists Scenario.sa_path. repeat split.
Defined.

(** X11.  In a show-info mode, a credential file whose text is not JSON
    is not reported by the program: the [JSONDecodeError] reaches the
    interpreter, which prints a traceback on stderr and exits with status
    1; stdout holds the banner only, and no SDK call was made. *)
Theorem show_info_on_malformed_file (w : World) (a : Args) (env : gmap string string)
    (p text msg : string) :
  info a || access_token a || (info_http a || access_token_http a) = true ->
  fst (credentials_path w (client a) (initial_state env)) = Ok p ->
  open_read w p = inr text ->
  json_loads w text = inl msg ->
  main w a env
  = (1%Z, MkState env false PNone false banner
            ["Traceback (most recent call last):"; msg] []).
Proof.
  intros Hmode Hpath Hopen Hloads.
  assert (Hload : credentials_info w (client a) (MkState env false PNone false banner [] [])
                  = (Raise (Exc (PyExc JSONDecodeError msg)),
                     MkState env false PNone false banner [] [])).
  { apply (credentials_info_decode_fails w (client a) _ p text);
      [reflexivity | | exact Hopen | exact Hloads].
    rewrite <- Hpath. apply credentials_path_environ. reflexivity. }
  unfold main. rewrite (run_info w a Hmode). unfold handle_info, try_except.
  rewrite (show_info_load_raises w (client a) (token_type a) env _ Hload).
  reflexivity.
Qed.

Lemma show_info_on_malformed_file_witness :
  main Faults.garbled
    (MkArgs None true false false false None None None None None None false)
    Scenario.env_set
  = (1%Z, MkState Scenario.env_set false PNone false banner
            ["Traceback (most recent call last):";
             "Expecting value: line 1 column 1 (char 0)"] []).
Proof.
  apply (show_info_on_malformed_file Faults.garbled
           (MkArgs None true false false false None None None None None None false)
           Scenario.env_set Scenario.env_path "oops"
           "Expecting value: line 1 column 1 (char 0)");
    reflexivity.
Defined.

(** ** What the send modes do not depend on *)

Lemma py_repr_ext (w w' : World) :
  (forall s, str_repr w s = str_repr w' s) ->
  forall v, py_repr w v = py_repr w' v.
Proof.
  intros Hrepr. fix IH 1. intros [ | [|] | n | r | s | xs | kvs]; cbn;
    try reflexivity.
  - apply Hrepr.
  - assert (Hxs : map (py_repr w) xs = map (py_repr w') xs).
    { induction xs as [|x xs IHxs]; [reflexivity|].
      cbn. rewrite (IH x), IHxs. reflexivity. }
    rewrite Hxs. reflexivity.
  - assert (Hkvs : map (fun kv => str_repr w (fst kv) +:+ ": " +:+ py_repr w (snd kv)) kvs
                   = map (fun kv => str_repr w' (fst kv) +:+ ": " +:+ py_repr w' (snd kv)) kvs).
    { induction kvs as [|[k v] kvs IHkvs]; [reflexivity|].
      cbn. rewrite (IH v), IHkvs, Hrepr. reflexivity. }
    rewrite Hkvs. reflexivity.
Qed.

Lemma py_str_ext (w w' : World) :
  (forall s, str_repr w s = str_repr w' s) ->
  forall v, py_str w v = py_str w' v.
Proof.
  intros Hrepr v. destruct v as [ | b | n | r | s | xs | kvs]; try reflexivity.
  - apply (py_repr_ext w w' Hrepr (PList xs)).
  - apply (py_repr_ext w w' Hrepr (PDict kvs)).
Qed.

Lemma str_values_ext (w w' : World) :
  (forall s, str_repr w s = str_repr w' s) ->
  forall kvs, str_values w kvs = str_values w' kvs.
Proof.
  intros Hrepr kvs. unfold str_values. f_equal.
  induction kvs as [|kv kvs IH]; [reflexivity|].
  cbn. rewrite (py_str_ext w w' Hrepr), IH. reflexivity.
Qed.

Lemma initialize_ext (w w' : World) self s :
  initialize_app w = initialize_app w' ->
  initialize w self s = initialize w' self s.
Proof.
  intros Hinit. unfold initialize, firebase_initialize_app. rewrite Hinit. reflexivity.
Qed.

(** X12.  The send modes never look at the credential file.  Two
    installations whose decoder, SDK initialisation, send operation and
    parser texts agree give the same run (same exit status, same output,
    same SDK calls) for every invocation without a show-info switch,
    whatever their file systems and token services are: in particular a
    missing credential file is never reported by the program itself in a
    send mode. *)
Theorem send_modes_ignore_the_file_system (w w' : World) (a : Args)
    (env : gmap string string) :
  (forall s, str_repr w s = str_repr w' s) ->
  (forall text, json_loads w text = json_loads w' text) ->
  initialize_app w = initialize_app w' ->
  (forall m d, messaging_send w m d = messaging_send w' m d) ->
  prog w = prog w' -> format_usage w = format_usage w' ->
  format_help w = format_help w' ->
  info a || access_token a = false ->
  info_http a || access_token_http a = false ->
  main w a env = main w' a env.
Proof.
  intros Hrepr Hloads Hinit Hsend Hprog Husage Hhelp H1 H2.
  assert (Hrun : run w a (initial_state env) = run w' a (initial_state env)).
  { unfold run. rewrite H1, H2.
    destruct (truthy (data_only a)).
    - unfold parser_error. rewrite Hprog, Husage.
      destruct (negb (truthy (token a))); [reflexivity|].
      change ((mret tt;; handle_data_only w a) (initial_state env))
        with (handle_data_only w a (initial_state env)).
      change ((mret tt;; handle_data_only w' a) (initial_state env))
        with (handle_data_only w' a (initial_state env)).
      rewrite !handle_data_only_eq.
      destruct (data_only a) as [text|]; [|reflexivity].
      rewrite <- Hloads. destruct (json_loads w text) as [msg|v]; [reflexivity|].
      rewrite !send_data_message_eq, <- (initialize_ext w w' _ _ Hinit).
      destruct (initialize w (client a) (initial_state env)) as [[[]|[e|c]] s1];
        try reflexivity.
      destruct v; try reflexivity.
      rewrite <- (str_values_ext w w' Hrepr), <- Hsend.
      destruct (messaging_send w _ _); reflexivity.
    - destruct (truthy (token a)); [|unfold print_help; rewrite Hhelp; reflexivity].
      unfold parser_error. rewrite Hprog, Husage.
      destruct (negb (truthy (title a)) || negb (truthy (body a))); [reflexivity|].
      change ((mret tt;; handle_notification w a) (initial_state env))
        with (handle_notification w a (initial_state env)).
      change ((mret tt;; handle_notification w' a) (initial_state env))
        with (handle_notification w' a (initial_state env)).
      rewrite !handle_notification_eq.
      assert (Hdata : notification_data w a = notification_data w' a).
      { unfold notification_data. destruct (truthy (data a)); [|reflexivity].
        destruct (data a) as [text|]; [|reflexivity].
        rewrite <- Hloads. destruct (json_loads w text) as [msg|v]; [reflexivity|].
        destruct v; try reflexivity.
        rewrite (str_values_ext w w' Hrepr). reflexivity. }
      rewrite <- Hdata.
      destruct (notification_data w a (initial_state env)) as [[d|sg] s0]; [|reflexivity].
      rewrite !send_notification_eq, <- (initialize_ext w w' _ _ Hinit).
      destruct (initialize w (client a) s0) as [[[]|[e|c]] s1]; try reflexivity.
      rewrite <- Hsend. destruct (messaging_send w _ _); reflexivity. }
  unfold main. rewrite Hrun. reflexivity.
Qed.

Lemma send_modes_ignore_the_file_system_witness :
  main Scenario.world
    (MkArgs (Some Scenario.missing_path) false false false false (Some "abc")
       (Some "Hello") (Some "World") None None None false)
    Scenario.env_unset
  = main Faults.empty_disk
      (MkArgs (Some Scenario.missing_path) false false false false (Some "abc")
         (Some "Hello") (Some "World") None None None false)
      Scenario.env_unset.
Proof.
  apply (send_modes_ignore_the_file_system Scenario.world Faults.empty_disk
           (MkArgs (Some Scenario.missing_path) false false false false (Some "abc")
              (Some "Hello") (Some "World") None None None false)
           Scenario.env_unset);
    reflexivity.
Defined.

(** ** The token request of a show-info run *)

Lemma initialize_creds_path w self s :
  creds_path self (environ (snd (initialize w self s))) = creds_path self (environ s).
Proof.
  unfold creds_path. destruct (truthy (_credentials_key_file self)) eqn:Hflag;
    [reflexivity|].
  f_equal.
  assert (Hframe : preserves environ (initialize w self)).
  { unfold initialize. rewrite Hflag. frame. }
  apply Hframe.
Qed.

Lemma get_token_trace w self t s p :
  untouched s ->
  fst (credentials_path w self s) = Ok p ->
  trace (snd (get_token w self t s))
  = EvInitializeApp (adc_at_init self s)
    :: match fst (initialize w self s) with
       | Ok _ => [match t with
                  | FIREBASE_ADMIN => EvAdminToken
                  | FCM_OAUTH_HTTP_API => EvCertificateToken p
                  end]
       | Raise _ => []
       end.
Proof.
  intros Hs Hpath. destruct (initialize_untouched w self s Hs) as [Htrace Happs].
  pose proof (initialize_creds_path w self s) as Hsel.
  destruct t; cbn [get_token].
  - unfold get_access_token, firebase_get_app, mbind, M_bind.
    destruct (initialize w self s) as [[[]|sg] s1]; cbn [fst snd] in *.
    + unfold gets at 1. rewrite (Happs eq_refl). cbn.
      destruct (admin_access_token w (environ s1)); cbn; rewrite Htrace; reflexivity.
    + exact Htrace.
  - unfold get_access_token_http_api, mbind, M_bind.
    destruct (initialize w self s) as [[[]|sg] s1]; cbn [fst snd] in *.
    + rewrite credentials_path_eq in Hpath |- *. rewrite Hsel.
      cbn [fst] in Hpath.
      destruct (negb (truthy (creds_path self (environ s)))); [discriminate|].
      destruct (negb (path_exists w (str_opt (creds_path self (environ s)))));
        [discriminate|].
      injection Hpath as ->.
      cbn. destruct (certificate_access_token w p); cbn; rewrite Htrace; reflexivity.
    + exact Htrace.
Qed.

(** X13.  A show-info run over a credential file that holds a JSON object
    initialises the SDK once and then, only if that succeeded, makes one
    token request: [get_access_token] for [--info]/[--access-token], and
    for the HTTP variant a certificate loaded from the very path the run
    has just displayed.  Whether the request then succeeds or fails does
    not change the calls made. *)
Theorem show_info_token_request (w : World) (a : Args) (env : gmap string string)
    (p text : string) (kvs : list (string * pyval)) :
  info a || access_token a || (info_http a || access_token_http a) = true ->
  fst (credentials_path w (client a) (initial_state env)) = Ok p ->
  open_read w p = inr text ->
  json_loads w text = inr (PDict kvs) ->
  trace (snd (main w a env))
  = EvInitializeApp (adc_at_init (client a) (initial_state env))
    :: match fst (initialize w (client a) (loaded_state w env kvs p)) with
       | Ok _ => [match token_type a with
                  | FIREBASE_ADMIN => EvAdminToken
                  | FCM_OAUTH_HTTP_API => EvCertificateToken p
                  end]
       | Raise _ => []
       end.
Proof.
  intros Hmode Hpath Hopen Hloads.
  rewrite main_trace, (run_info w a Hmode), handle_info_trace.
  rewrite (show_info_loaded w (client a) (token_type a) env p text kvs Hpath Hopen Hloads).
  rewrite token_report_trace.
  apply (get_token_trace w (client a) (token_type a) (loaded_state w env kvs p) p).
  - repeat split.
  - rewrite <- Hpath. apply credentials_path_environ. reflexivity.
Qed.

Lemma show_info_token_request_witness :
  trace (snd (main Scenario.offline
                (MkArgs (Some Scenario.sa_path) false false false true None None None
                   None None None false)
                Scenario.env_set))
  = [EvInitializeApp (Some Scenario.sa_path); EvCertificateToken Scenario.sa_path].
Proof.
  apply (show_info_token_request Scenario.offline
           (MkArgs (Some Scenario.sa_path) false false false true None None None
              None None None false)
           Scenario.env_set Scenario.sa_path Scenario.sa_text
           [("project_id", PStr "demo"); ("client_email", PStr "x@y.iam")]
           eq_refl eq_refl eq_refl eq_refl).
Defined.

(** ** The accessors on a payload that is not an object *)

(** X14.  On a cached payload that is not a JSON object, [project_id] and
    [service_account_email] behave by its truth value: a falsy one ([0],
    [false], the empty string, [[]]) gives the empty string, a truthy one
    (a number, a non-empty string or list, [true]) raises
    [AttributeError], since it has no [get]; in both cases the state is
    left alone. *)
Theorem accessors_on_other_payloads (w : World) (self : FCMClient) (s : State) :
  _credentials_info s <> PNone ->
  (forall kvs, _credentials_info s <> PDict kvs) ->
  (py_bool (_credentials_info s) = false ->
   project_id w self s = (Ok (PStr EmptyString), s)
   /\ service_account_email w self s = (Ok (PStr EmptyString), s))
  /\
  (py_bool (_credentials_info s) = true ->
   project_id w self s
   = (Raise (Exc (PyExc AttributeError (no_attribute (_credentials_info s) "get"))), s)
   /\ service_account_email w self s
      = (Raise (Exc (PyExc AttributeError (no_attribute (_credentials_info s) "get"))), s)).
Proof.
  intros Hloaded Hshape.
  pose proof (credentials_info_cached w self s Hloaded) as Hcached.
  split; intros Htruth; unfold project_id, service_account_email, mbind, M_bind;
    rewrite Hcached, Htruth; [split; reflexivity|].
  rewrite Hcached.
  destruct (_credentials_info s) as [ | b | n | r | t | xs | kvs];
    try (split; reflexivity).
  exfalso. apply (Hshape kvs). reflexivity.
Qed.

Lemma accessors_on_other_payloads_witness :
  project_id Scenario.world (MkFCMClient None)
    (MkState ∅ false (PList []) false [] [] [])
  = (Ok (PStr EmptyString), MkState ∅ false (PList []) false [] [] [])
  /\
  service_account_email Scenario.world (MkFCMClient None)
    (MkState ∅ false (PInt 7) false [] [] [])
  = (Raise (Exc (PyExc AttributeError "'int' object has no attribute 'get'")),
     MkState ∅ false (PInt 7) false [] [] []).
Proof.
  split.
  - apply (proj1 (accessors_on_other_payloads Scenario.world (MkFCMClient None)
                    (MkState ∅ false (PList []) false [] [] [])
                    ltac:(discriminate) ltac:(discriminate))).
    reflexivity.
  - apply (proj2 (accessors_on_other_payloads Scenario.world (MkFCMClient None)
                    (MkState ∅ false (PInt 7) false [] [] [])
                    ltac:(discriminate) ltac:(discriminate))).
    reflexivity.
Defined.

(** ** A send mode when the SDK does not initialise *)

(** X15.  In a send mode, an exception raised by the SDK initialisation is
    handled by the same [except] clauses as one raised by the send: when
    the run got as far as the SDK and [initialize] raised [e], the process
    prints the one error line those clauses give for [e], exits with
    status 1, and no message was handed to [messaging.send]. *)
Theorem send_mode_initialisation_failure (w : World) (a : Args)
    (env : gmap string string) (e : pyexc) :
  info a || access_token a = false ->
  info_http a || access_token_http a = false ->
  trace (snd (main w a env)) <> [] ->
  fst (initialize w (client a) (initial_state env)) = Raise (Exc e) ->
  fst (main w a env) = 1%Z
  /\ stdout (snd (main w a env)) = [send_error_line a e]
  /\ sent (snd (main w a env)) = []
  /\ trace (snd (main w a env))
     = [EvInitializeApp (adc_at_init (client a) (initial_state env))].
Proof.
  intros H1 H2. rewrite main_trace, main_stdout, main_sent, main_status.
  assert (Hs0 : untouched (initial_state env)) by (repeat split).
  destruct (initialize_untouched w (client a) (initial_state env) Hs0) as [Htrace _].
  pose proof (initialize_stdout w (client a) (initial_state env)) as Hout.
  pose proof (initialize_sent w (client a) (initial_state env)) as Hsent.
  destruct (usage_error a) eqn:Husage.
  { rewrite (run_usage_error w a _ Husage). intros Hreached. exfalso.
    apply Hreached. reflexivity. }
  revert Husage. unfold usage_error, send_error_line, run. rewrite H1, H2.
  cbn [negb andb].
  destruct (truthy (data_only a)).
  - intros Htoken. rewrite Htoken.
    change ((mret tt;; handle_data_only w a) (initial_state env))
      with (handle_data_only w a (initial_state env)).
    rewrite handle_data_only_eq.
    destruct (data_only a) as [text|];
      [|intros Hreached; exfalso; apply Hreached; reflexivity].
    destruct (json_loads w text) as [msg|v];
      [intros Hreached; exfalso; apply Hreached; reflexivity|].
    rewrite send_data_message_eq.
    destruct (initialize w (client a) (initial_state env)) as [[[]|sg] s1];
      cbn [fst snd] in *; [discriminate|].
    intros _ [= ->]. unfold sent in *. cbn. rewrite Hout, Hsent, Htrace.
    repeat split.
  - destruct (truthy (token a));
      [|intros _ Hreached; exfalso; apply Hreached; reflexivity].
    cbn [andb]. intros Hfields. rewrite Hfields.
    change ((mret tt;; handle_notification w a) (initial_state env))
      with (handle_notification w a (initial_state env)).
    rewrite handle_notification_eq.
    destruct (notification_data w a (initial_state env)) as [[d|sg] s0] eqn:Hdata.
    + apply notification_data_ok in Hdata. subst s0.
      rewrite send_notification_eq.
      destruct (initialize w (client a) (initial_state env)) as [[[]|sg] s1];
        cbn [fst snd] in *; [discriminate|].
      intros _ [= ->]. unfold sent in *. cbn. rewrite Hout, Hsent, Htrace.
      destruct (exc_cls e); repeat split.
    + assert (Hframe : preserves trace (notification_data w a))
        by (unfold notification_data, print; frame).
      specialize (Hframe (initial_state env)). rewrite Hdata in Hframe.
      cbn [fst snd] in *. rewrite Hframe. intros Hreached.
      exfalso. apply Hreached. reflexivity.
Qed.

Lemma send_mode_initialisation_failure_witness :
  stdout (snd (main Faults.no_sdk
                 (MkArgs None false false false false (Some "abc") (Some "Hello")
                    (Some "World") None None None false)
                 Scenario.env_set))
  = [nl +:+ "✗ Error sending notification: Invalid Firebase app options."].
Proof.
  apply (send_mode_initialisation_failure Faults.no_sdk
           (MkArgs None false false false false (Some "abc") (Some "Hello")
              (Some "World") None None None false)
           Scenario.env_set (PyExc ValueError "Invalid Firebase app options.")
           eq_refl eq_refl).
  - discriminate.
  - reflexivity.
Defined.
